(** * spot_wrapper / spot_dance.py: the dance-execution workflow

    A shallow embedding of [SpotDance] (src/spot_wrapper/spot_dance.py):
    [upload_animation], [_check_dance_completed] and [execute_dance], with
    the robot, the choreography service, the protobuf parser, the clock and
    the file system as an explicit environment, and the calls made to them
    recorded in a trace. *)

From Stdlib Require Import ZArith List String Ascii Bool Lia Permutation.
From Stdlib Require Import Floats DecimalString.
Import ListNotations.

Local Open Scope list_scope.
Local Open Scope string_scope.
Local Open Scope Z_scope.

(* ================================================================== *)
(** ** Python values *)

(** [str(n)] and [f"{n}"] of a Python int. *)
Definition string_of_Z (n : Z) : string :=
  NilZero.string_of_int (Z.to_int n).

(** The nearest binary64 value of an integer (round to nearest, ties to
    even), as CPython's int-to-float conversion computes it when the integer
    is in range. *)
Definition float_of_Z (n : Z) : float :=
  SF2Prim (binary_normalize prec emax n 0 false).

(** From this magnitude on the nearest binary64 value is infinite. *)
Definition float_overflow : Z := 2 ^ 1024 - 2 ^ 970.

(** The literal [0.2] of the source (the nearest binary64 value) and the
    literal [60.0]. *)
Definition poll_interval : float := 0x1.999999999999ap-3%float.
Definition sixty : float := 60%float.

(** The exceptions that play a part in the file, each with the text that
    [str(e)] gives.  [UnauthenticatedError] is a subclass of [ResponseError]
    in the SDK; a [ResponseError] carries the response, of which the code
    reads [response.warnings].  [OtherException] stands for every other
    subclass of [Exception] (an RPC error, an OS error, a protobuf
    [ParseError], ...). *)
Inductive exn : Type :=
| UnauthenticatedError (detail : string)
| ResponseError (detail : string) (warnings : list string)
| CommandTimedOutError (detail : string)
| ZeroDivisionError (detail : string)
| OverflowError (detail : string)
| UnboundLocalError (detail : string)
| OtherException (detail : string).

Definition str (e : exn) : string :=
  match e with
  | UnauthenticatedError d => d
  | ResponseError d _ => d
  | CommandTimedOutError d => d
  | ZeroDivisionError d => d
  | OverflowError d => d
  | UnboundLocalError d => d
  | OtherException d => d
  end.

Definition is_CommandTimedOutError (e : exn) : bool :=
  match e with
  | CommandTimedOutError _ => true
  | _ => false
  end.

(** What a call to a collaborator gives back: a value, or an exception. *)
Inductive response (A : Type) : Type :=
| Ok (a : A)
| Fails (e : exn).

Arguments Ok {A} a.
Arguments Fails {A} e.

(* ================================================================== *)
(** ** The data model (bosdyn.api.spot.choreography_sequence_pb2) *)

(** [MoveParams]: the move-type identifier and the requested duration in
    slices (an [int32] field). *)
Record MoveParams : Type := {
  move_type : string;
  requested_slices : Z
}.

(** [ChoreographySequence]: name, rate (a [double] field) and moves. *)
Record ChoreographySequence : Type := {
  name : string;
  slices_per_minute : float;
  moves : list MoveParams
}.

(** The wire-format animation, [convert_animation_file_to_proto(..).proto]. *)
Record Animation : Type := {
  proto : string
}.

(** The enum constants the file names.  Protobuf enum values are plain
    integers in Python; the numbers are fixed by the message definitions,
    which are not part of this repository, so they are parameters here.
    The first five belong to [ChoreographyStatusResponse.Status], the last
    one to [ExecuteChoreographyResponse.Status]. *)
Record choreography_sequence_pb2 : Type := {
  STATUS_PREPPING : Z;
  STATUS_DANCING : Z;
  STATUS_WAITING_FOR_START_TIME : Z;
  STATUS_VALIDATING : Z;
  STATUS_COMPLETED_SEQUENCE : Z;
  STATUS_OK : Z
}.

(** An [int32] field holds a value of this range. *)
Definition int32 (n : Z) : Prop := - 2 ^ 31 <= n < 2 ^ 31.

(** A message as protobuf can hold it: every [requested_slices] is an
    [int32], and the repeated field has at most [sys.maxsize] entries. *)
Definition well_formed (ms : list MoveParams) : Prop :=
  Forall (fun move => int32 (requested_slices move)) ms /\
  Z.of_nat (List.length ms) < 2 ^ 63.

(* ================================================================== *)
(** ** The collaborators *)

(** [bosdyn.client.robot.Robot]. *)
Record Robot : Type := {
  is_estopped : response bool;
  power_on : response unit
}.

(** [ChoreographyClient].  [execute_choreography] gives [response.status];
    [get_choreography_status] is polled, and its answer at the k-th call
    (from 0) is [get_choreography_status k], the [status] of the first
    component of the pair the client returns. *)
Record ChoreographyClient : Type := {
  upload_animated_move : Animation -> string -> response unit;
  upload_choreography : ChoreographySequence -> bool -> response unit;
  execute_choreography : string -> float -> Z -> response Z;
  get_choreography_status : nat -> response Z
}.

(** The Python runtime and the libraries: the clock ([time_time k] is what
    the k-th call of [time.time()] returns), the text-format parser, the
    temporary directory, writing a file, the animation converter (it reads
    the file, so it is given the name and what the file holds), and the
    texts the interpreter puts in the exceptions it raises itself. *)
Record Runtime : Type := {
  time_time : nat -> float;
  text_format_Merge : string -> response ChoreographySequence;
  TemporaryDirectory : response string;
  write_file : string -> string -> response unit;
  convert_animation_file_to_proto : string -> string -> response Animation;
  unbound_local_text : string;
  zero_division_text : string
}.

(** A [SpotDance] object with the environment it runs in. *)
Record SpotDance : Type := {
  _robot : Robot;
  _choreography_client : ChoreographyClient;
  runtime : Runtime;
  pb2 : choreography_sequence_pb2
}.

(* ================================================================== *)
(** ** Effects: a state and exception monad with a trace *)

(** The calls that leave the process, in the order they are made. *)
Inductive event : Type :=
| EvIsEstopped
| EvMerge (data : string)
| EvUploadChoreography (choreography : ChoreographySequence)
    (non_strict_parsing : bool)
| EvPowerOn
| EvExecuteChoreography (choreography_name : string)
    (client_start_time : float) (choreography_starting_slice : Z)
| EvGetChoreographyStatus
| EvLogInfo (msg : string)
| EvSleep (seconds : float)
| EvTemporaryDirectory
| EvWriteFile (filename content : string)
| EvConvert (filename : string)
| EvUploadAnimatedMove (animation : Animation) (animation_name : string)
| EvCleanup (temp_dir : string).

(** How often the clock and the status endpoint have been asked, and the
    trace so far. *)
Record state : Type := {
  time_calls : nat;
  status_calls : nat;
  trace : list event
}.

Definition initial : state :=
  {| time_calls := 0; status_calls := 0; trace := [] |}.

Definition record (ev : event) (s : state) : state :=
  {| time_calls := time_calls s;
     status_calls := status_calls s;
     trace := (trace s ++ [ev])%list |}.

(** How a computation ends: with a value, with an exception, or not within
    the iterations the model was given. *)
Inductive outcome (A : Type) : Type :=
| Return (a : A)
| Raise (e : exn)
| OutOfFuel.

Arguments Return {A} a.
Arguments Raise {A} e.
Arguments OutOfFuel {A}.

Definition M (A : Type) : Type := state -> outcome A * state.

Definition ret {A : Type} (a : A) : M A := fun s => (Return a, s).

Definition raise {A : Type} (e : exn) : M A := fun s => (Raise e, s).

Definition out_of_fuel {A : Type} : M A := fun s => (OutOfFuel, s).

Definition bind {A B : Type} (m : M A) (k : A -> M B) : M B :=
  fun s =>
    match m s with
    | (Return a, s') => k a s'
    | (Raise e, s') => (Raise e, s')
    | (OutOfFuel, s') => (OutOfFuel, s')
    end.

Declare Scope py_scope.
Delimit Scope py_scope with py.

Notation "x <- m ;; k" := (bind m (fun x => k))
  (at level 100, m at next level, right associativity) : py_scope.
Notation "m ;;; k" := (bind m (fun _ => k))
  (at level 100, right associativity) : py_scope.

Local Open Scope py_scope.

(** [try: m except Exception as e: h e]. *)
Definition try_except {A : Type} (m : M A) (h : exn -> M A) : M A :=
  fun s =>
    match m s with
    | (Raise e, s') => h e s'
    | r => r
    end.

(** A [try] block whose body only binds a value: the value, or the
    exception for the handlers to look at. *)
Definition attempt {A : Type} (m : M A) : M (response A) :=
  try_except (a <- m ;; ret (Ok a)) (fun e => ret (Fails e)).

(** [with ... :] runs [cleanup] however the body ends. *)
Definition finally {A : Type} (m : M A) (cleanup : state -> state) : M A :=
  fun s => let (r, s') := m s in (r, cleanup s').

(** A call to a collaborator: recorded, then its answer. *)
Definition call {A : Type} (ev : event) (r : response A) : M A :=
  fun s =>
    match r with
    | Ok a => (Return a, record ev s)
    | Fails e => (Raise e, record ev s)
    end.

(** A Python expression that may raise. *)
Definition eval {A : Type} (r : response A) : M A :=
  fun s =>
    match r with
    | Ok a => (Return a, s)
    | Fails e => (Raise e, s)
    end.

(* ================================================================== *)
(** ** The primitive operations of the file *)

(** [time.time()]: the next reading of the clock. *)
Definition time (self : SpotDance) : M float :=
  fun s =>
    (Return (time_time (runtime self) (time_calls s)),
     {| time_calls := S (time_calls s);
        status_calls := status_calls s;
        trace := trace s |}).

(** [time.sleep(seconds)]. *)
Definition sleep (seconds : float) : M unit :=
  fun s => (Return tt, record (EvSleep seconds) s).

(** [self._logger.info(msg)]. *)
Definition logger_info (msg : string) : M unit :=
  fun s => (Return tt, record (EvLogInfo msg) s).

(** [self._choreography_client.get_choreography_status()[0].status]: the
    next answer of the status endpoint. *)
Definition choreography_status (self : SpotDance) : M Z :=
  fun s =>
    let s' := {| time_calls := time_calls s;
                 status_calls := S (status_calls s);
                 trace := (trace s ++ [EvGetChoreographyStatus])%list |} in
    match get_choreography_status (_choreography_client self)
            (status_calls s) with
    | Ok status => (Return status, s')
    | Fails e => (Raise e, s')
    end.

(** [os.path.join(a, b)] on POSIX. *)
Definition os_path_join (a b : string) : string :=
  if prefix "/" b then b
  else
    match String.length a with
    | O => b
    | S n =>
        match String.get n a with
        | Some "/"%char => a ++ b
        | _ => a ++ "/" ++ b
        end
    end.

(** [n / x] for an int [n] and a float [x]: the int is converted first
    ([OverflowError] when it has no finite binary64 value), then a zero
    divisor raises [ZeroDivisionError]. *)
Definition truediv (self : SpotDance) (n : Z) (x : float) : response float :=
  if float_overflow <=? Z.abs n
  then Fails (OverflowError "int too large to convert to float")
  else if (x =? 0)%float
  then Fails (ZeroDivisionError (zero_division_text (runtime self)))
  else Ok (float_of_Z n / x)%float.

(* ================================================================== *)
(** ** upload_animation (lines 37-63) *)

Definition upload_animation (self : SpotDance)
    (animation_name animation_file_content : string) : M (bool * string) :=
  temp_dir <- call EvTemporaryDirectory (TemporaryDirectory (runtime self)) ;;
  finally
    (let filename := os_path_join temp_dir (animation_name ++ ".cha") in
     call (EvWriteFile filename animation_file_content)
          (write_file (runtime self) filename animation_file_content) ;;;
     converted <-
       attempt
         (call (EvConvert filename)
               (convert_animation_file_to_proto (runtime self) filename
                  animation_file_content)) ;;
     match converted with
     | Fails e =>
         ret (false,
              "Failed to convert animation file to protobuf message: "
                ++ str e)
     | Ok animation_pb =>
         uploaded <-
           attempt
             (logger_info ("Uploading the name " ++ animation_name) ;;;
              call (EvUploadAnimatedMove animation_pb animation_name)
                   (upload_animated_move (_choreography_client self)
                      animation_pb animation_name)) ;;
         match uploaded with
         | Fails e => ret (false, "Failed to upload animation: " ++ str e)
         | Ok _ => ret (true, "Success")
         end
     end)
    (record (EvCleanup temp_dir)).

(* ================================================================== *)
(** ** _check_dance_completed (lines 91-98) *)

Definition ongoing_states (self : SpotDance) : list Z :=
  [ STATUS_PREPPING (pb2 self);
    STATUS_DANCING (pb2 self);
    STATUS_WAITING_FOR_START_TIME (pb2 self);
    STATUS_VALIDATING (pb2 self) ].

(** [status not in ongoing_states]. *)
Definition _check_dance_completed (self : SpotDance) (status : Z) : bool :=
  negb (existsb (Z.eqb status) (ongoing_states self)).

(* ================================================================== *)
(** ** execute_dance (lines 100-162) *)

(** Lines 139-144: the loop over [choreography.moves].  The state of the
    loop is [total_choreography_slices] and the local variable
    [estimated_time_seconds], which is unbound ([None]) until the body has
    run once. *)
Fixpoint estimate_loop (self : SpotDance) (slices_per_minute : float)
    (ms : list MoveParams) (total_choreography_slices : Z)
    (estimated_time_seconds : option float)
    : response (Z * option float) :=
  match ms with
  | [] => Ok (total_choreography_slices, estimated_time_seconds)
  | move :: rest =>
      let total_choreography_slices :=
        total_choreography_slices + requested_slices move in
      match truediv self total_choreography_slices slices_per_minute with
      | Fails e => Fails e
      | Ok quotient =>
          estimate_loop self slices_per_minute rest
            total_choreography_slices (Some (quotient * sixty)%float)
      end
  end.

(** Reading the local variable [estimated_time_seconds]. *)
Definition load_estimated_time_seconds (self : SpotDance)
    (estimated_time_seconds : option float) : M float :=
  match estimated_time_seconds with
  | Some seconds => ret seconds
  | None => raise (UnboundLocalError (unbound_local_text (runtime self)))
  end.

(** Lines 147-157: the polling loop.  The guard reads the clock, then the
    local variable; [fuel] bounds how often the loop may come back to its
    guard after the first time. *)
Fixpoint poll (self : SpotDance) (fuel : nat) (start : float)
    (estimated_time_seconds : option float) : M (bool * string) :=
  now <- time self ;;
  seconds <- load_estimated_time_seconds self estimated_time_seconds ;;
  if (now - start <? seconds + poll_interval)%float then
    status <- choreography_status self ;;
    logger_info (string_of_Z status) ;;;
    if _check_dance_completed self status then
      if status =? STATUS_COMPLETED_SEQUENCE (pb2 self)
      then ret (true, "success")
      else ret (false,
                "call to execute_choreography returned unsuccessful status: "
                  ++ string_of_Z status)
    else
      sleep poll_interval ;;;
      match fuel with
      | O => out_of_fuel
      | S fuel' => poll self fuel' start estimated_time_seconds
      end
  else raise (CommandTimedOutError "").

(** Lines 126-157: the body of the last [try]. *)
Definition dance (self : SpotDance) (fuel : nat)
    (choreography : ChoreographySequence) : M (bool * string) :=
  call EvPowerOn (power_on (_robot self)) ;;;
  let routine_name := name choreography in
  client_start_time <- time self ;;
  let start_slice := 0 in
  status <-
    call (EvExecuteChoreography routine_name client_start_time start_slice)
         (execute_choreography (_choreography_client self) routine_name
            client_start_time start_slice) ;;
  if negb (status =? STATUS_OK (pb2 self)) then
    ret (false,
         "Issue calling execute_choreography, got response.status: "
           ++ string_of_Z status)
  else
    locals <-
      eval (estimate_loop self (slices_per_minute choreography)
              (moves choreography) 0 None) ;;
    start <- time self ;;
    poll self fuel start (snd locals).

(** Lines 159-162: the handlers of the last [try]. *)
Definition dance_handlers (e : exn) : M (bool * string) :=
  match e with
  | CommandTimedOutError _ =>
      raise
        (CommandTimedOutError
           "Call to execute_choreography did not return completion state in stipulated time")
  | _ => ret (false, "Error executing dance: " ++ str e)
  end.

(** Lines 116-124: the handlers of the upload.  [UnauthenticatedError] is
    asked for first; any exception that is neither is not handled.  The
    license message is the literal of line 117 alone: the literal of line
    118 stands on a line of its own, an expression statement without
    effect. *)
Definition upload_handlers (e : exn) : M (bool * string) :=
  match e with
  | UnauthenticatedError _ =>
      ret (false,
           "The robot license must contain 'choreography' permissions to upload and execute dances.")
  | ResponseError _ warnings =>
      ret (false,
           fold_left (fun error_msg warn => error_msg ++ warn) warnings
             "Choreography sequence upload failed. The following warnings were produced: ")
  | _ => raise e
  end.

(** Lines 100-162.  The estop message is the literal of line 103 alone: the
    literal of line 104 is an expression statement of its own.  The parse
    (lines 106-111) and the upload (lines 112-124) each have their own [try]
    block; [is_estopped()] is called outside any. *)
Definition execute_dance (self : SpotDance) (fuel : nat) (data : string)
    : M (bool * string) :=
  estopped <- call EvIsEstopped (is_estopped (_robot self)) ;;
  if estopped : bool then
    ret (false, "Robot is estopped. Please use an external E-Stop client")
  else
    parsed <-
      attempt (call (EvMerge data) (text_format_Merge (runtime self) data)) ;;
    match parsed with
    | Fails execp =>
        ret (false,
             "Failed to load choreography. Raised exception: " ++ str execp)
    | Ok choreography =>
        uploaded <-
          attempt
            (call (EvUploadChoreography choreography true)
                  (upload_choreography (_choreography_client self)
                     choreography true)) ;;
        match uploaded with
        | Fails e => upload_handlers e
        | Ok _ => try_except (dance self fuel choreography) dance_handlers
        end
    end.

(* ================================================================== *)
(** ** Vocabulary of the properties *)

(** The string literal of line 118.  It follows the assignment of line 117
    on a line of its own, so it is an expression statement and no part of
    [error_msg]. *)
Definition license_guidance : string :=
  "Please contact Boston Dynamics Support to get the appropriate license file. ".

(** [needle in text]. *)
Definition contains (needle text : string) : bool :=
  match index 0 needle text with
  | Some _ => true
  | None => false
  end.

(** The robot is not estopped, [data] parses to [choreography], the upload
    and the power-on succeed and the execute request is answered with
    [STATUS_OK]: the run reaches the duration estimate. *)
Definition starts_dancing (self : SpotDance) (data : string)
    (choreography : ChoreographySequence) : Prop :=
  is_estopped (_robot self) = Ok false /\
  text_format_Merge (runtime self) data = Ok choreography /\
  upload_choreography (_choreography_client self) choreography true = Ok tt /\
  power_on (_robot self) = Ok tt /\
  execute_choreography (_choreography_client self) (name choreography)
    (time_time (runtime self) 0) 0 = Ok (STATUS_OK (pb2 self)).

(** The trace of a run up to the duration estimate. *)
Definition started_trace (self : SpotDance) (data : string)
    (choreography : ChoreographySequence) : list event :=
  [ EvIsEstopped;
    EvMerge data;
    EvUploadChoreography choreography true;
    EvPowerOn;
    EvExecuteChoreography (name choreography) (time_time (runtime self) 0) 0 ].

(** The guard of the polling loop at the clock reading [now]. *)
Definition within_window (start seconds now : float) : bool :=
  (now - start <? seconds + poll_interval)%float.

(** The loop goes round once for each of [statuses]: from the [t]-th clock
    reading and the [k]-th status call on, every guard holds and every
    sample is the next of [statuses] and ongoing. *)
Fixpoint keeps_polling (self : SpotDance) (start seconds : float)
    (t k : nat) (statuses : list Z) : Prop :=
  match statuses with
  | [] => True
  | status :: rest =>
      within_window start seconds (time_time (runtime self) t) = true /\
      get_choreography_status (_choreography_client self) k = Ok status /\
      _check_dance_completed self status = false /\
      keeps_polling self start seconds (S t) (S k) rest
  end.

(** What one round of the loop leaves in the trace for an ongoing sample,
    and what the rounds for [statuses] leave. *)
Definition round_events (status : Z) : list event :=
  [ EvGetChoreographyStatus;
    EvLogInfo (string_of_Z status);
    EvSleep poll_interval ].

Definition poll_events (statuses : list Z) : list event :=
  flat_map round_events statuses.

(** The state after the rounds for the ongoing samples [statuses]. *)
Definition after_rounds (s : state) (statuses : list Z) : state :=
  {| time_calls := time_calls s + List.length statuses;
     status_calls := status_calls s + List.length statuses;
     trace := (trace s ++ poll_events statuses)%list |}.

(** [sum(move.requested_slices for move in moves)]. *)
Definition total_slices (ms : list MoveParams) : Z :=
  fold_right (fun move total => requested_slices move + total) 0 ms.

(** The estimate as the specification words it: a single computation after
    the loop, [total_slices / slices_per_minute * 60]. *)
Definition estimate_after_loop (self : SpotDance) (slices_per_minute : float)
    (ms : list MoveParams) : response float :=
  match truediv self (total_slices ms) slices_per_minute with
  | Fails e => Fails e
  | Ok quotient => Ok (quotient * sixty)%float
  end.

(** The value of [estimated_time_seconds] when the loop of the source is
    left. *)
Definition estimate_in_loop (self : SpotDance) (slices_per_minute : float)
    (ms : list MoveParams) : response (option float) :=
  match estimate_loop self slices_per_minute ms 0 None with
  | Fails e => Fails e
  | Ok locals => Ok (snd locals)
  end.

(** An exception [e] comes up at a step of the last [try] block: at the
    power-on, at the execute request, in the duration estimate, at the
    first guard of the loop when no estimate was bound, at a status request
    after the samples [statuses], or, as the bare timeout, at the guard
    that fails after the samples [statuses]. *)
Inductive raises_in_dance (self : SpotDance) (fuel : nat)
    (choreography : ChoreographySequence) (e : exn) : Prop :=
| raises_power_on :
    power_on (_robot self) = Fails e ->
    raises_in_dance self fuel choreography e
| raises_execute :
    power_on (_robot self) = Ok tt ->
    execute_choreography (_choreography_client self) (name choreography)
      (time_time (runtime self) 0) 0 = Fails e ->
    raises_in_dance self fuel choreography e
| raises_estimate :
    power_on (_robot self) = Ok tt ->
    execute_choreography (_choreography_client self) (name choreography)
      (time_time (runtime self) 0) 0 = Ok (STATUS_OK (pb2 self)) ->
    estimate_loop self (slices_per_minute choreography) (moves choreography)
      0 None = Fails e ->
    raises_in_dance self fuel choreography e
| raises_unbound (total : Z) :
    power_on (_robot self) = Ok tt ->
    execute_choreography (_choreography_client self) (name choreography)
      (time_time (runtime self) 0) 0 = Ok (STATUS_OK (pb2 self)) ->
    estimate_loop self (slices_per_minute choreography) (moves choreography)
      0 None = Ok (total, None) ->
    e = UnboundLocalError (unbound_local_text (runtime self)) ->
    raises_in_dance self fuel choreography e
| raises_status (total : Z) (seconds : float) (statuses : list Z) :
    power_on (_robot self) = Ok tt ->
    execute_choreography (_choreography_client self) (name choreography)
      (time_time (runtime self) 0) 0 = Ok (STATUS_OK (pb2 self)) ->
    estimate_loop self (slices_per_minute choreography) (moves choreography)
      0 None = Ok (total, Some seconds) ->
    keeps_polling self (time_time (runtime self) 1) seconds 2 0 statuses ->
    within_window (time_time (runtime self) 1) seconds
      (time_time (runtime self) (2 + List.length statuses)) = true ->
    get_choreography_status (_choreography_client self)
      (List.length statuses) = Fails e ->
    (List.length statuses <= fuel)%nat ->
    raises_in_dance self fuel choreography e
| raises_timeout (total : Z) (seconds : float) (statuses : list Z) :
    power_on (_robot self) = Ok tt ->
    execute_choreography (_choreography_client self) (name choreography)
      (time_time (runtime self) 0) 0 = Ok (STATUS_OK (pb2 self)) ->
    estimate_loop self (slices_per_minute choreography) (moves choreography)
      0 None = Ok (total, Some seconds) ->
    keeps_polling self (time_time (runtime self) 1) seconds 2 0 statuses ->
    within_window (time_time (runtime self) 1) seconds
      (time_time (runtime self) (2 + List.length statuses)) = false ->
    (List.length statuses <= fuel)%nat ->
    e = CommandTimedOutError "" ->
    raises_in_dance self fuel choreography e.

(* ================================================================== *)
(** ** A concrete robot, for running the model *)

Module Example.

(** The enum numbers as the SDK's choreography_sequence.proto gives them;
    the properties below hold for any numbering. *)
Definition bosdyn : choreography_sequence_pb2 :=
  {| STATUS_PREPPING := 3;
     STATUS_DANCING := 1;
     STATUS_WAITING_FOR_START_TIME := 4;
     STATUS_VALIDATING := 5;
     STATUS_COMPLETED_SEQUENCE := 2;
     STATUS_OK := 1 |}.

Definition STATUS_FALLEN : Z := 7.

(** Two moves of 10 and 20 slices at 300 slices per minute: six seconds. *)
Definition twist : ChoreographySequence :=
  {| name := "twist";
     slices_per_minute := 300;
     moves := [ {| move_type := "rotate_body"; requested_slices := 10 |};
                {| move_type := "sway"; requested_slices := 20 |} ] |}.

(** A routine without moves. *)
Definition still : ChoreographySequence :=
  {| name := "still"; slices_per_minute := 300; moves := [] |}.

(** A routine whose rate is zero. *)
Definition frozen : ChoreographySequence :=
  {| name := "frozen";
     slices_per_minute := 0;
     moves := [ {| move_type := "sway"; requested_slices := 4 |} ] |}.

(** The texts of the three routines, and a text that is no routine. *)
Definition twist_text : string :=
  "name: 'twist' slices_per_minute: 300 moves { type: 'rotate_body' requested_slices: 10 } moves { type: 'sway' requested_slices: 20 }".

Definition still_text : string :=
  "name: 'still' slices_per_minute: 300".

Definition frozen_text : string :=
  "name: 'frozen' slices_per_minute: 0 moves { type: 'sway' requested_slices: 4 }".

Definition garbled_text : string :=
  "name 'twist' }".

Definition parse (data : string) : response ChoreographySequence :=
  if (data =? twist_text)%string then Ok twist
  else if (data =? still_text)%string then Ok still
  else if (data =? frozen_text)%string then Ok frozen
  else Fails (OtherException "1:6 : Expected ':'.").

(** A clock that reads 1000 s first and a quarter of a second more at
    every reading. *)
Definition clock (k : nat) : float :=
  (1000 + float_of_Z (Z.of_nat k) * 0.25)%float.

Definition convert (filename content : string) : response Animation :=
  if (content =? "")%string
  then Fails (OtherException "Animation file is empty")
  else Ok {| proto := content |}.

Definition python : Runtime :=
  {| time_time := clock;
     text_format_Merge := parse;
     TemporaryDirectory := Ok "/tmp/tmpk3v9";
     write_file := fun _ _ => Ok tt;
     convert_animation_file_to_proto := convert;
     unbound_local_text :=
       "cannot access local variable 'estimated_time_seconds' where it is not associated with a value";
     zero_division_text := "float division by zero" |}.

Definition ready : Robot := {| is_estopped := Ok false; power_on := Ok tt |}.

Definition estopped : Robot := {| is_estopped := Ok true; power_on := Ok tt |}.

Definition unpowered : Robot :=
  {| is_estopped := Ok false;
     power_on := Fails (OtherException "Robot did not power on") |}.

(** A service that answers the upload with [upload] and the status
    requests with [status]. *)
Definition service (upload : response unit) (status : nat -> response Z)
    : ChoreographyClient :=
  {| upload_animated_move := fun _ _ => Ok tt;
     upload_choreography := fun _ _ => upload;
     execute_choreography := fun _ _ _ => Ok 1;
     get_choreography_status := status |}.

Definition spot (robot : Robot) (client : ChoreographyClient) : SpotDance :=
  {| _robot := robot;
     _choreography_client := client;
     runtime := python;
     pb2 := bosdyn |}.

(** The robot dances and never finishes. *)
Definition dances_on (k : nat) : response Z := Ok 1.

(** The robot dances for three samples, then reports [final]. *)
Definition finishes_with (final : Z) (k : nat) : response Z :=
  if (k <? 3)%nat then Ok 1 else Ok final.

(** The connection is lost at the third status request. *)
Definition drops (k : nat) : response Z :=
  if (k <? 2)%nat then Ok 1 else Fails (OtherException "Connection lost").

End Example.

(* ================================================================== *)
(** ** How the polling loop ends *)

(** The ways a run of the polling loop that starts in the state [s] can
    end, each after a run of ongoing samples [statuses]: the guard fails
    (the bare timeout), a status request raises, a sample is terminal, or
    the model is out of fuel. *)
Inductive poll_ends (self : SpotDance) (fuel : nat) (start seconds : float)
    (s : state) : outcome (bool * string) -> state -> Prop :=
| ends_window_elapsed (statuses : list Z) :
    keeps_polling self start seconds (time_calls s) (status_calls s) statuses ->
    (List.length statuses <= fuel)%nat ->
    within_window start seconds
      (time_time (runtime self) (time_calls s + List.length statuses)) = false ->
    poll_ends self fuel start seconds s
      (Raise (CommandTimedOutError ""))
      {| time_calls := S (time_calls s + List.length statuses);
         status_calls := status_calls s + List.length statuses;
         trace := (trace s ++ poll_events statuses)%list |}
| ends_status_raises (statuses : list Z) (e : exn) :
    keeps_polling self start seconds (time_calls s) (status_calls s) statuses ->
    (List.length statuses <= fuel)%nat ->
    within_window start seconds
      (time_time (runtime self) (time_calls s + List.length statuses)) = true ->
    get_choreography_status (_choreography_client self)
      (status_calls s + List.length statuses) = Fails e ->
    poll_ends self fuel start seconds s
      (Raise e)
      {| time_calls := S (time_calls s + List.length statuses);
         status_calls := S (status_calls s + List.length statuses);
         trace := (trace s ++ poll_events statuses
                     ++ [EvGetChoreographyStatus])%list |}
| ends_terminal (statuses : list Z) (status : Z) :
    keeps_polling self start seconds (time_calls s) (status_calls s) statuses ->
    (List.length statuses <= fuel)%nat ->
    within_window start seconds
      (time_time (runtime self) (time_calls s + List.length statuses)) = true ->
    get_choreography_status (_choreography_client self)
      (status_calls s + List.length statuses) = Ok status ->
    _check_dance_completed self status = true ->
    poll_ends self fuel start seconds s
      (Return
         (if status =? STATUS_COMPLETED_SEQUENCE (pb2 self)
          then (true, "success")
          else (false,
                "call to execute_choreography returned unsuccessful status: "
                  ++ string_of_Z status)))
      {| time_calls := S (time_calls s + List.length statuses);
         status_calls := S (status_calls s + List.length statuses);
         trace := (trace s ++ poll_events statuses
                     ++ [EvGetChoreographyStatus;
                         EvLogInfo (string_of_Z status)])%list |}
| ends_out_of_fuel (statuses : list Z) :
    keeps_polling self start seconds (time_calls s) (status_calls s) statuses ->
    List.length statuses = S fuel ->
    poll_ends self fuel start seconds s OutOfFuel (after_rounds s statuses).

(** The events of the polling loop: status requests, log lines, sleeps. *)
Definition is_poll_event (ev : event) : bool :=
  match ev with
  | EvGetChoreographyStatus | EvLogInfo _ | EvSleep _ => true
  | _ => false
  end.

(* ================================================================== *)
(** ** More concrete robots *)

Module Scenario.

(** A service that answers the upload of an animation with [animated], the
    execute request with [execute] and the status requests with [status]. *)
Definition service (animated : response unit) (execute : response Z)
    (status : nat -> response Z) : ChoreographyClient :=
  {| upload_animated_move := fun _ _ => animated;
     upload_choreography := fun _ _ => Ok tt;
     execute_choreography := fun _ _ _ => execute;
     get_choreography_status := status |}.

(** A runtime whose temporary directory is [dir] and whose file write
    answers with [write]; the rest is the runtime of [Example]. *)
Definition python (dir : response string) (write : response unit) : Runtime :=
  {| time_time := Example.clock;
     text_format_Merge := Example.parse;
     TemporaryDirectory := dir;
     write_file := fun _ _ => write;
     convert_animation_file_to_proto := Example.convert;
     unbound_local_text := unbound_local_text Example.python;
     zero_division_text := zero_division_text Example.python |}.

Definition spot (py : Runtime) (client : ChoreographyClient) : SpotDance :=
  {| _robot := Example.ready;
     _choreography_client := client;
     runtime := py;
     pb2 := Example.bosdyn |}.

(** The execute request is answered with [STATUS_LEASE_ERROR]. *)
Definition STATUS_LEASE_ERROR : Z := 4.

(** The two moves of [Example.twist] in the other order. *)
Definition twist_reversed : list MoveParams :=
  [ {| move_type := "sway"; requested_slices := 20 |};
    {| move_type := "rotate_body"; requested_slices := 10 |} ].

End Scenario.

(* ================================================================== *)
(** ** Proof steps *)

(** The next call of the program text, answered as [H] says. *)
Ltac run_call H :=
  unfold bind at 1, call at 1; rewrite H.

(** The same for a call that is the body of a [try] block. *)
Ltac run_attempt H :=
  unfold bind at 1, attempt at 1, try_except at 1, bind at 1, call at 1;
  rewrite H; cbn [ret].

(** The guard of the polling loop, with the value [H] gives it. *)
Ltac run_guard H :=
  unfold bind at 1, time at 1; cbn [load_estimated_time_seconds];
  unfold bind at 1, ret at 1; rewrite H.

(** The status request of a round, answered as [H] says. *)
Ltac run_status H :=
  unfold bind at 1, choreography_status at 1;
  cbn [status_calls time_calls trace]; rewrite H.

(** The reading of the clock outside the loop. *)
Ltac run_time :=
  unfold bind at 1, time at 1; cbn [time_calls status_calls trace record].

(* ================================================================== *)
(** * Properties *)

(** ** The polling loop *)

Section Polling.

Variable self : SpotDance.

(** One unfolding of the loop. *)
Lemma poll_unfold (fuel : nat) (start : float) (est : option float) :
  poll self fuel start est =
  (now <- time self ;;
   seconds <- load_estimated_time_seconds self est ;;
   if within_window start seconds now then
     status <- choreography_status self ;;
     logger_info (string_of_Z status) ;;;
     if _check_dance_completed self status then
       if status =? STATUS_COMPLETED_SEQUENCE (pb2 self)
       then ret (true, "success")
       else ret (false,
                 "call to execute_choreography returned unsuccessful status: "
                   ++ string_of_Z status)
     else
       sleep poll_interval ;;;
       match fuel with
       | O => out_of_fuel
       | S fuel' => poll self fuel' start est
       end
   else raise (CommandTimedOutError "")).
Proof. destruct fuel; reflexivity. Qed.

(** A round whose guard holds and whose sample is ongoing leaves the loop
    where it was, one reading and one sample later. *)
Lemma poll_round (fuel : nat) (start seconds : float) (status : Z) (s : state) :
  within_window start seconds (time_time (runtime self) (time_calls s)) = true ->
  get_choreography_status (_choreography_client self) (status_calls s)
    = Ok status ->
  _check_dance_completed self status = false ->
  poll self (S fuel) start (Some seconds) s =
  poll self fuel start (Some seconds) (after_rounds s [status]).
Proof.
  intros Hguard Hstatus Hongoing.
  rewrite (poll_unfold (S fuel)).
  run_guard Hguard. run_status Hstatus.
  unfold bind at 1, logger_info at 1.
  rewrite Hongoing.
  unfold bind at 1, sleep at 1.
  unfold after_rounds, record, poll_events, round_events; cbn.
  rewrite <- !app_assoc; cbn.
  now rewrite !Nat.add_1_r.
Qed.

Lemma after_rounds_nil (s : state) : after_rounds s [] = s.
Proof.
  destruct s as [t k tr]; unfold after_rounds; cbn.
  now rewrite !Nat.add_0_r, app_nil_r.
Qed.

Lemma after_rounds_cons (s : state) (status : Z) (rest : list Z) :
  after_rounds (after_rounds s [status]) rest = after_rounds s (status :: rest).
Proof.
  unfold after_rounds, poll_events; cbn.
  rewrite <- !app_assoc; cbn.
  f_equal; lia.
Qed.

(** The loop goes through the ongoing samples [statuses] and is back at
    its guard. *)
Lemma poll_rounds (statuses : list Z) :
  forall (fuel : nat) (start seconds : float) (s : state),
    keeps_polling self start seconds (time_calls s) (status_calls s) statuses ->
    (List.length statuses <= fuel)%nat ->
    poll self fuel start (Some seconds) s =
    poll self (fuel - List.length statuses) start (Some seconds)
      (after_rounds s statuses).
Proof.
  induction statuses as [|status rest IH]; intros fuel start seconds s Hkeep Hfuel.
  - now rewrite after_rounds_nil, Nat.sub_0_r.
  - destruct Hkeep as (Hguard & Hstatus & Hongoing & Hrest).
    cbn [List.length] in Hfuel.
    destruct fuel as [|fuel]; [lia|].
    rewrite (poll_round fuel _ _ _ _ Hguard Hstatus Hongoing).
    rewrite IH.
    + now rewrite after_rounds_cons.
    + cbn. now rewrite !Nat.add_1_r.
    + lia.
Qed.

(** At a guard that fails the loop is left with the bare timeout. *)
Lemma poll_window_elapsed (fuel : nat) (start seconds : float) (s : state) :
  within_window start seconds (time_time (runtime self) (time_calls s)) = false ->
  poll self fuel start (Some seconds) s =
  (Raise (CommandTimedOutError ""),
   {| time_calls := S (time_calls s);
      status_calls := status_calls s;
      trace := trace s |}).
Proof.
  intros Hguard.
  rewrite poll_unfold.
  now run_guard Hguard.
Qed.

(** At a guard that holds, a terminal sample ends the loop: with success
    for the completed sequence, with the raw status in the message
    otherwise. *)
Lemma poll_terminal (fuel : nat) (start seconds : float) (status : Z) (s : state) :
  within_window start seconds (time_time (runtime self) (time_calls s)) = true ->
  get_choreography_status (_choreography_client self) (status_calls s)
    = Ok status ->
  _check_dance_completed self status = true ->
  poll self fuel start (Some seconds) s =
  (Return
     (if status =? STATUS_COMPLETED_SEQUENCE (pb2 self)
      then (true, "success")
      else (false,
            "call to execute_choreography returned unsuccessful status: "
              ++ string_of_Z status)),
   {| time_calls := S (time_calls s);
      status_calls := S (status_calls s);
      trace := (trace s ++ [EvGetChoreographyStatus;
                            EvLogInfo (string_of_Z status)])%list |}).
Proof.
  intros Hguard Hstatus Hterminal.
  rewrite poll_unfold.
  run_guard Hguard. run_status Hstatus.
  unfold bind at 1, logger_info at 1.
  rewrite Hterminal.
  unfold record; cbn [status_calls time_calls trace].
  rewrite <- app_assoc.
  now destruct (status =? STATUS_COMPLETED_SEQUENCE (pb2 self)).
Qed.

(** At a guard that holds, a status request that raises ends the loop with
    its exception. *)
Lemma poll_status_raises (fuel : nat) (start seconds : float) (e : exn) (s : state) :
  within_window start seconds (time_time (runtime self) (time_calls s)) = true ->
  get_choreography_status (_choreography_client self) (status_calls s)
    = Fails e ->
  poll self fuel start (Some seconds) s =
  (Raise e,
   {| time_calls := S (time_calls s);
      status_calls := S (status_calls s);
      trace := (trace s ++ [EvGetChoreographyStatus])%list |}).
Proof.
  intros Hguard Hstatus.
  rewrite poll_unfold.
  run_guard Hguard. now run_status Hstatus.
Qed.

(** Without an estimate the first guard raises, after it has read the
    clock. *)
Lemma poll_unbound (fuel : nat) (start : float) (s : state) :
  poll self fuel start None s =
  (Raise (UnboundLocalError (unbound_local_text (runtime self))),
   {| time_calls := S (time_calls s);
      status_calls := status_calls s;
      trace := trace s |}).
Proof. rewrite poll_unfold. reflexivity. Qed.

(** Without fuel left, a round with an ongoing sample is where the model
    stops. *)
Lemma poll_out_of_fuel (start seconds : float) (status : Z) (s : state) :
  within_window start seconds (time_time (runtime self) (time_calls s)) = true ->
  get_choreography_status (_choreography_client self) (status_calls s)
    = Ok status ->
  _check_dance_completed self status = false ->
  poll self 0 start (Some seconds) s = (OutOfFuel, after_rounds s [status]).
Proof.
  intros Hguard Hstatus Hongoing.
  rewrite poll_unfold.
  run_guard Hguard. run_status Hstatus.
  unfold bind at 1, logger_info at 1.
  rewrite Hongoing.
  unfold bind at 1, sleep at 1, out_of_fuel.
  unfold after_rounds, record, poll_events, round_events; cbn.
  rewrite <- !app_assoc; cbn.
  now rewrite !Nat.add_1_r.
Qed.

(** The only exceptions that leave the loop: the bare timeout at a guard
    that fails, and the exception of a status request, either after a run
    of ongoing samples. *)
Lemma poll_raises_inv (start seconds : float) (fuel : nat) :
  forall (s s' : state) (e : exn),
    poll self fuel start (Some seconds) s = (Raise e, s') ->
    exists statuses : list Z,
      keeps_polling self start seconds (time_calls s) (status_calls s) statuses /\
      (List.length statuses <= fuel)%nat /\
      ((within_window start seconds
          (time_time (runtime self) (time_calls s + List.length statuses))
          = false /\
        e = CommandTimedOutError "") \/
       (within_window start seconds
          (time_time (runtime self) (time_calls s + List.length statuses))
          = true /\
        get_choreography_status (_choreography_client self)
          (status_calls s + List.length statuses) = Fails e)).
Proof.
  induction fuel as [|fuel IH]; intros s s' e Hrun.
  all: destruct (within_window start seconds
                   (time_time (runtime self) (time_calls s))) eqn:Hguard;
    [ destruct (get_choreography_status (_choreography_client self)
                  (status_calls s)) as [status|e0] eqn:Hstatus;
      [ destruct (_check_dance_completed self status) eqn:Hcheck | ]
    | ].
  all: try (rewrite (poll_terminal _ _ _ status _ Hguard Hstatus Hcheck) in Hrun;
            discriminate).
  all: try (rewrite (poll_status_raises _ _ _ e0 _ Hguard Hstatus) in Hrun;
            injection Hrun as He _; subst e0;
            exists []; cbn [List.length keeps_polling];
            rewrite !Nat.add_0_r; repeat split; [lia | right; now split]).
  all: try (rewrite (poll_window_elapsed _ _ _ _ Hguard) in Hrun;
            injection Hrun as He _; subst e;
            exists []; cbn [List.length keeps_polling];
            rewrite !Nat.add_0_r; repeat split; [lia | left; now split]).
  - rewrite (poll_out_of_fuel _ _ status _ Hguard Hstatus Hcheck) in Hrun.
    discriminate.
  - rewrite (poll_round fuel _ _ status _ Hguard Hstatus Hcheck) in Hrun.
    apply IH in Hrun. destruct Hrun as (rest & Hkeep & Hlen & Hend).
    cbn [after_rounds time_calls status_calls List.length] in Hkeep, Hend.
    rewrite !Nat.add_1_r in Hkeep.
    exists (status :: rest). cbn [List.length keeps_polling].
    replace (time_calls s + S (List.length rest))%nat
      with (time_calls s + 1 + List.length rest)%nat by lia.
    replace (status_calls s + S (List.length rest))%nat
      with (status_calls s + 1 + List.length rest)%nat by lia.
    repeat split; try assumption. lia.
Qed.

End Polling.

(** ** The duration estimate *)

Section Estimate.

Variable self : SpotDance.

Lemma float_overflow_large :
  9223372036854775808 * 2147483648 < float_overflow.
Proof. reflexivity. Qed.

Lemma int32_abs (n : Z) : int32 n -> Z.abs n <= 2147483648.
Proof.
  unfold int32; change (2 ^ 31) with 2147483648; lia.
Qed.

(** The slices of [n] moves add up to at most [n] times the largest
    [int32]. *)
Lemma total_slices_bound (ms : list MoveParams) :
  Forall (fun move => int32 (requested_slices move)) ms ->
  Z.abs (total_slices ms) <= Z.of_nat (List.length ms) * 2147483648.
Proof.
  induction 1 as [|move rest Hmove _ IH]; cbn [total_slices fold_right List.length].
  - lia.
  - fold (total_slices rest).
    apply int32_abs in Hmove. lia.
Qed.

(** An integer with a finite binary64 value is divided as IEEE 754 says,
    unless the divisor is zero. *)
Lemma truediv_in_range (n : Z) (x : float) :
  Z.abs n < float_overflow ->
  truediv self n x =
  if (x =? 0)%float
  then Fails (ZeroDivisionError (zero_division_text (runtime self)))
  else Ok (float_of_Z n / x)%float.
Proof.
  intros Hn. unfold truediv.
  destruct (float_overflow <=? Z.abs n) eqn:E; [apply Z.leb_le in E; lia|].
  reflexivity.
Qed.

(** The loop, started with [total] in hand, ends with the estimate for all
    the slices, whatever estimate it started with. *)
Lemma estimate_loop_from (slices_per_minute : float) (ms : list MoveParams) :
  forall (total : Z) (est : option float),
    Forall (fun move => int32 (requested_slices move)) ms ->
    Z.abs total + Z.of_nat (List.length ms) * 2147483648 < float_overflow ->
    ms <> [] ->
    estimate_loop self slices_per_minute ms total est =
    match truediv self (total + total_slices ms) slices_per_minute with
    | Fails e => Fails e
    | Ok quotient => Ok (total + total_slices ms, Some (quotient * sixty)%float)
    end.
Proof.
  induction ms as [|move rest IH]; intros total est Hall Hrange Hne;
    [congruence|].
  inversion Hall as [|? ? Hmove Hrest]; subst.
  pose proof (int32_abs _ Hmove) as Hm.
  pose proof (total_slices_bound rest Hrest) as Hr.
  cbn [List.length] in Hrange.
  cbn [estimate_loop total_slices fold_right]. fold (total_slices rest).
  rewrite !truediv_in_range by lia.
  destruct (slices_per_minute =? 0)%float eqn:Hzero; [reflexivity|].
  destruct rest as [|move' rest'].
  - cbn. now rewrite Z.add_0_r.
  - rewrite IH; [|assumption|cbn [List.length] in *; lia|discriminate].
    rewrite truediv_in_range by (cbn [List.length] in *; lia).
    rewrite Hzero, Z.add_assoc. reflexivity.
Qed.

(** From the start of the loop, for a routine as protobuf can hold it. *)
Lemma estimate_loop_value (slices_per_minute : float) (ms : list MoveParams) :
  ms <> [] ->
  well_formed ms ->
  estimate_loop self slices_per_minute ms 0 None =
  if (slices_per_minute =? 0)%float
  then Fails (ZeroDivisionError (zero_division_text (runtime self)))
  else Ok (total_slices ms,
           Some (float_of_Z (total_slices ms) / slices_per_minute * sixty)%float).
Proof.
  intros Hne [Hall Hlen].
  change (2 ^ 63) with 9223372036854775808 in Hlen.
  pose proof float_overflow_large as Hbig.
  pose proof (total_slices_bound ms Hall) as Hsum.
  rewrite estimate_loop_from by (assumption || (cbn; lia)).
  cbn [Z.add]. rewrite truediv_in_range by lia.
  now destruct (slices_per_minute =? 0)%float.
Qed.

(** [n] moves of [slices] each request [n * slices] slices. *)
Lemma total_slices_repeat (move : MoveParams) (n : nat) :
  total_slices (repeat move n) = Z.of_nat n * requested_slices move.
Proof.
  induction n as [|n IH]; [reflexivity|].
  cbn [repeat total_slices fold_right]. fold (total_slices (repeat move n)).
  rewrite IH. lia.
Qed.

(** X15.  Where the loop runs at least once: [n] moves of [slices] slices
    each at a rate that is not zero are estimated at
    [n * slices / rate * 60]. *)
Lemma estimate_uniform_routine (slices_per_minute : float)
    (move : MoveParams) (n : nat) :
  (0 < n)%nat ->
  well_formed (repeat move n) ->
  (slices_per_minute =? 0)%float = false ->
  estimate_in_loop self slices_per_minute (repeat move n) =
  Ok (Some (float_of_Z (Z.of_nat n * requested_slices move)
              / slices_per_minute * sixty)%float).
Proof.
  intros Hn Hwf Hrate. unfold estimate_in_loop.
  rewrite estimate_loop_value; [|destruct n; [lia|discriminate]|assumption].
  now rewrite Hrate, total_slices_repeat.
Qed.

End Estimate.

(** ** Runs of execute_dance *)

Section Runs.

Variable self : SpotDance.

(** The warnings are appended one after the other. *)
Lemma warnings_appended (warnings : list string) :
  forall prefix : string,
    fold_left (fun error_msg warn => error_msg ++ warn) warnings prefix
    = prefix ++ String.concat "" warnings.
Proof.
  assert (Hnil : forall s : string, s ++ "" = s)
    by (induction s as [|c s IHs]; cbn; congruence).
  assert (Hassoc : forall a b c : string, (a ++ b) ++ c = a ++ (b ++ c))
    by (induction a as [|x a IHa]; intros; cbn; congruence).
  induction warnings as [|warn rest IH]; intros prefix; cbn [fold_left].
  - cbn. now rewrite Hnil.
  - rewrite IH, Hassoc. f_equal.
    destruct rest; cbn; [now rewrite Hnil | reflexivity].
Qed.

(** After a successful upload the run is in the last [try] block. *)
Lemma execute_dance_uploaded (fuel : nat) (data : string)
    (choreography : ChoreographySequence) :
  is_estopped (_robot self) = Ok false ->
  text_format_Merge (runtime self) data = Ok choreography ->
  upload_choreography (_choreography_client self) choreography true = Ok tt ->
  execute_dance self fuel data initial =
  try_except (dance self fuel choreography) dance_handlers
    {| time_calls := 0;
       status_calls := 0;
       trace := [ EvIsEstopped; EvMerge data;
                  EvUploadChoreography choreography true ] |}.
Proof.
  intros Hestop Hparse Hupload.
  unfold execute_dance. run_call Hestop. run_attempt Hparse.
  now run_attempt Hupload.
Qed.

(** The handlers of the last [try] block: the timeout is raised again with
    its message, every other exception becomes the generic failure. *)
Lemma dance_handlers_result (e : exn) (s : state) :
  dance_handlers e s =
  (if is_CommandTimedOutError e
   then Raise
          (CommandTimedOutError
             "Call to execute_choreography did not return completion state in stipulated time")
   else Return (false, "Error executing dance: " ++ str e),
   s).
Proof. destruct e; reflexivity. Qed.

(** A run that starts dancing comes to the polling loop with what the
    estimate left in [estimated_time_seconds], or to the handlers with the
    exception of the estimate. *)
Lemma execute_dance_started (fuel : nat) (data : string)
    (choreography : ChoreographySequence) :
  starts_dancing self data choreography ->
  execute_dance self fuel data initial =
  try_except
    (locals <-
       eval (estimate_loop self (slices_per_minute choreography)
               (moves choreography) 0 None) ;;
     start <- time self ;;
     poll self fuel start (snd locals))
    dance_handlers
    {| time_calls := 1;
       status_calls := 0;
       trace := started_trace self data choreography |}.
Proof.
  intros (Hestop & Hparse & Hupload & Hpower & Hexecute).
  rewrite (execute_dance_uploaded fuel data choreography Hestop Hparse Hupload).
  unfold try_except, dance. run_call Hpower. run_time. run_call Hexecute.
  now rewrite Z.eqb_refl.
Qed.

(** With an estimate in hand the run is in the loop from the third clock
    reading on. *)
Lemma execute_dance_polls (fuel : nat) (data : string)
    (choreography : ChoreographySequence) (total : Z) (est : option float) :
  starts_dancing self data choreography ->
  estimate_loop self (slices_per_minute choreography) (moves choreography)
    0 None = Ok (total, est) ->
  execute_dance self fuel data initial =
  try_except (poll self fuel (time_time (runtime self) 1) est) dance_handlers
    {| time_calls := 2;
       status_calls := 0;
       trace := started_trace self data choreography |}.
Proof.
  intros Hstart Hest.
  rewrite (execute_dance_started fuel data choreography Hstart).
  unfold try_except, bind at 1, eval at 1. rewrite Hest.
  reflexivity.
Qed.

(** The steps listed by [raises_in_dance] are all there are: every
    exception that leaves the body of the last [try] block comes up at one
    of them. *)
Lemma dance_raises_inv (fuel : nat) (choreography : ChoreographySequence)
    (tr : list event) (e : exn) (s' : state) :
  dance self fuel choreography
    {| time_calls := 0; status_calls := 0; trace := tr |} = (Raise e, s') ->
  raises_in_dance self fuel choreography e.
Proof.
  unfold dance, bind at 1, call at 1.
  destruct (power_on (_robot self)) as [[]|e0] eqn:Hpower;
    [|intros [= <- _]; now apply raises_power_on].
  run_time.
  unfold bind at 1, call at 1.
  destruct (execute_choreography (_choreography_client self)
              (name choreography) (time_time (runtime self) 0) 0)
    as [status|e0] eqn:Hexecute;
    [|intros [= <- _]; now apply raises_execute].
  destruct (status =? STATUS_OK (pb2 self)) eqn:Hok; cbn [negb];
    [|discriminate].
  apply Z.eqb_eq in Hok; subst status.
  unfold bind at 1, eval at 1.
  destruct (estimate_loop self (slices_per_minute choreography)
              (moves choreography) 0 None) as [[total est]|e0] eqn:Hestimate;
    [|intros [= <- _]; now apply raises_estimate].
  run_time. cbn [snd].
  destruct est as [seconds|].
  - intros Hrun. apply poll_raises_inv in Hrun.
    destruct Hrun as (statuses & Hkeep & Hlen & [[Hguard He]|[Hguard Hstatus]]);
      cbn [time_calls status_calls] in *.
    + now apply (raises_timeout self fuel choreography e total seconds
                   statuses).
    + now apply (raises_status self fuel choreography e total seconds
                   statuses).
  - rewrite poll_unbound. intros [= <- _].
    now apply (raises_unbound self fuel choreography _ total).
Qed.

(** Outside the last [try] block nothing is converted: an exception of
    [is_estopped()] reaches the caller. *)
Lemma execute_dance_estop_query_raises (fuel : nat) (data : string) (e : exn) :
  is_estopped (_robot self) = Fails e ->
  execute_dance self fuel data initial = (Raise e, record EvIsEstopped initial).
Proof.
  intros Hestop. unfold execute_dance. now run_call Hestop.
Qed.

(** Nor is an exception of the upload that has no handler of its own. *)
Lemma execute_dance_upload_unhandled (fuel : nat) (data : string)
    (choreography : ChoreographySequence) (e : exn) :
  is_estopped (_robot self) = Ok false ->
  text_format_Merge (runtime self) data = Ok choreography ->
  upload_choreography (_choreography_client self) choreography true
    = Fails e ->
  (forall detail, e <> UnauthenticatedError detail) ->
  (forall detail warnings, e <> ResponseError detail warnings) ->
  fst (execute_dance self fuel data initial) = Raise e.
Proof.
  intros Hestop Hparse Hupload Hauth Hresponse.
  unfold execute_dance. run_call Hestop. run_attempt Hparse.
  run_attempt Hupload.
  destruct e; try reflexivity.
  - now elim (Hauth detail).
  - now elim (Hresponse detail warnings).
Qed.

End Runs.

(* ================================================================== *)
(** * The claims *)

Section Claims.

Variable self : SpotDance.

(** C1.  When the polling window of [estimated_time_seconds + 0.2] seconds
    elapses and none of the samples taken was terminal, [execute_dance]
    raises [CommandTimedOutError] and returns no tuple.  Until then every
    round of the loop whose guard holds takes one sample of the status
    endpoint and sleeps 0.2 seconds ([poll_events]). *)
Theorem execute_dance_times_out (fuel : nat) (data : string)
    (choreography : ChoreographySequence) (total : Z) (seconds : float)
    (statuses : list Z) :
  starts_dancing self data choreography ->
  estimate_loop self (slices_per_minute choreography) (moves choreography)
    0 None = Ok (total, Some seconds) ->
  keeps_polling self (time_time (runtime self) 1) seconds 2 0 statuses ->
  within_window (time_time (runtime self) 1) seconds
    (time_time (runtime self) (2 + List.length statuses)) = false ->
  (List.length statuses <= fuel)%nat ->
  execute_dance self fuel data initial =
  (Raise
     (CommandTimedOutError
        "Call to execute_choreography did not return completion state in stipulated time"),
   {| time_calls := 3 + List.length statuses;
      status_calls := List.length statuses;
      trace := (started_trace self data choreography
                  ++ poll_events statuses)%list |}).
Proof.
  intros Hstart Hest Hkeep Helapsed Hfuel.
  rewrite (execute_dance_polls self fuel data choreography total _ Hstart Hest).
  unfold try_except.
  rewrite (poll_rounds self statuses) by assumption.
  rewrite poll_window_elapsed by exact Helapsed.
  reflexivity.
Qed.

(** C2.  A sample is terminal exactly when its status is none of the four
    ongoing states.  On the first terminal sample [execute_dance] returns
    success when the status is the completed-sequence status and otherwise
    failure with the raw status in the message; the terminal sample is the
    last call to the status endpoint. *)
Theorem execute_dance_terminal_sample (fuel : nat) (data : string)
    (choreography : ChoreographySequence) (total : Z) (seconds : float)
    (statuses : list Z) (status : Z) :
  (forall sample : Z,
      _check_dance_completed self sample = true <->
      ~ In sample [ STATUS_PREPPING (pb2 self);
                    STATUS_DANCING (pb2 self);
                    STATUS_WAITING_FOR_START_TIME (pb2 self);
                    STATUS_VALIDATING (pb2 self) ]) /\
  (starts_dancing self data choreography ->
   estimate_loop self (slices_per_minute choreography) (moves choreography)
     0 None = Ok (total, Some seconds) ->
   keeps_polling self (time_time (runtime self) 1) seconds 2 0 statuses ->
   within_window (time_time (runtime self) 1) seconds
     (time_time (runtime self) (2 + List.length statuses)) = true ->
   get_choreography_status (_choreography_client self) (List.length statuses)
     = Ok status ->
   _check_dance_completed self status = true ->
   (List.length statuses <= fuel)%nat ->
   execute_dance self fuel data initial =
   (Return
      (if status =? STATUS_COMPLETED_SEQUENCE (pb2 self)
       then (true, "success")
       else (false,
             "call to execute_choreography returned unsuccessful status: "
               ++ string_of_Z status)),
    {| time_calls := 3 + List.length statuses;
       status_calls := S (List.length statuses);
       trace := (started_trace self data choreography
                   ++ poll_events statuses
                   ++ [EvGetChoreographyStatus;
                       EvLogInfo (string_of_Z status)])%list |})).
Proof.
  split.
  - intros sample. unfold _check_dance_completed.
    rewrite negb_true_iff, <- not_true_iff_false, existsb_exists.
    unfold ongoing_states. split.
    + intros Hnone Hin. apply Hnone. exists sample. split; [exact Hin|apply Z.eqb_refl].
    + intros Hnot (x & Hin & Heq). apply Z.eqb_eq in Heq. subst x. exact (Hnot Hin).
  - intros Hstart Hest Hkeep Hguard Hstatus Hterminal Hfuel.
    rewrite (execute_dance_polls self fuel data choreography total _ Hstart Hest).
    unfold try_except.
    rewrite (poll_rounds self statuses) by assumption.
    rewrite (poll_terminal self _ _ _ status) by assumption.
    unfold after_rounds; cbn [time_calls status_calls trace].
    rewrite <- app_assoc. reflexivity.
Qed.

(** C4, as the code has it.  An exception that comes up at a step of the
    last [try] block (power-on, execute request, duration estimate, guard
    or status request of the polling loop) is caught by the handlers of
    that block and becomes the result
    [(false, "Error executing dance: <detail>")]; of these exceptions only
    the timeout reaches the caller, raised again with its message. *)
Theorem execute_dance_unclassified (fuel : nat) (data : string)
    (choreography : ChoreographySequence) (e : exn) :
  is_estopped (_robot self) = Ok false ->
  text_format_Merge (runtime self) data = Ok choreography ->
  upload_choreography (_choreography_client self) choreography true = Ok tt ->
  raises_in_dance self fuel choreography e ->
  fst (execute_dance self fuel data initial) =
  if is_CommandTimedOutError e
  then Raise
         (CommandTimedOutError
            "Call to execute_choreography did not return completion state in stipulated time")
  else Return (false, "Error executing dance: " ++ str e).
Proof.
  intros Hestop Hparse Hupload Hraises.
  destruct Hraises
    as [Hpower
       |Hpower Hexecute
       |Hpower Hexecute Hestimate
       |total Hpower Hexecute Hestimate He
       |total seconds statuses Hpower Hexecute Hestimate Hkeep Hguard
          Hstatus Hfuel
       |total seconds statuses Hpower Hexecute Hestimate Hkeep Hguard
          Hfuel He].
  - rewrite (execute_dance_uploaded self fuel data choreography
               Hestop Hparse Hupload).
    unfold try_except, dance. run_call Hpower.
    now rewrite dance_handlers_result.
  - rewrite (execute_dance_uploaded self fuel data choreography
               Hestop Hparse Hupload).
    unfold try_except, dance. run_call Hpower. run_time.
    run_call Hexecute.
    now rewrite dance_handlers_result.
  - rewrite (execute_dance_started self fuel data choreography)
      by (repeat split; assumption).
    unfold try_except, bind at 1, eval at 1. rewrite Hestimate.
    now rewrite dance_handlers_result.
  - rewrite (execute_dance_polls self fuel data choreography total None)
      by (repeat split; assumption).
    unfold try_except. rewrite poll_unbound, dance_handlers_result.
    now subst e.
  - rewrite (execute_dance_polls self fuel data choreography total
               (Some seconds))
      by (repeat split; assumption).
    unfold try_except.
    rewrite (poll_rounds self statuses) by assumption.
    rewrite (poll_status_raises self _ _ _ e) by assumption.
    now rewrite dance_handlers_result.
  - rewrite (execute_dance_polls self fuel data choreography total
               (Some seconds))
      by (repeat split; assumption).
    unfold try_except.
    rewrite (poll_rounds self statuses) by assumption.
    rewrite poll_window_elapsed by assumption.
    rewrite dance_handlers_result. now subst e.
Qed.

(** C5.  When [is_estopped()] reports true, [execute_dance] returns failure
    with a message that tells the operator to use an external E-Stop
    client, and the query of the estop state is the only call it makes: no
    parse, no upload, no execute, no polling. *)
Theorem execute_dance_estopped (fuel : nat) (data : string) :
  is_estopped (_robot self) = Ok true ->
  execute_dance self fuel data initial =
  (Return (false, "Robot is estopped. Please use an external E-Stop client"),
   {| time_calls := 0; status_calls := 0; trace := [EvIsEstopped] |}) /\
  contains "external E-Stop client"
    "Robot is estopped. Please use an external E-Stop client" = true.
Proof.
  intros Hestop. split; [|reflexivity].
  unfold execute_dance, bind, call. now rewrite Hestop.
Qed.

(** X17.  When [upload_choreography] raises the authorization error,
    [execute_dance] returns failure with the literal of line 117 as its
    message and the upload is its last call, so the robot is not powered
    on and nothing is executed; when it raises a response error with
    warnings, [execute_dance] returns failure with a message that ends with
    all the warnings, concatenated in the order of the response, and the
    upload is its last call as well. *)
Theorem execute_dance_upload_rejected (fuel : nat) (data : string)
    (choreography : ChoreographySequence) (detail : string) :
  is_estopped (_robot self) = Ok false ->
  text_format_Merge (runtime self) data = Ok choreography ->
  (upload_choreography (_choreography_client self) choreography true
     = Fails (UnauthenticatedError detail) ->
   execute_dance self fuel data initial =
   (Return
      (false,
       "The robot license must contain 'choreography' permissions to upload and execute dances."),
    {| time_calls := 0;
       status_calls := 0;
       trace := [ EvIsEstopped; EvMerge data;
                  EvUploadChoreography choreography true ] |})) /\
  (forall warnings : list string,
      upload_choreography (_choreography_client self) choreography true
        = Fails (ResponseError detail warnings) ->
      execute_dance self fuel data initial =
      (Return
         (false,
          "Choreography sequence upload failed. The following warnings were produced: "
            ++ String.concat "" warnings),
       {| time_calls := 0;
          status_calls := 0;
          trace := [ EvIsEstopped; EvMerge data;
                     EvUploadChoreography choreography true ] |})).
Proof.
  intros Hestop Hparse.
  assert (Hrun : forall e : exn,
             upload_choreography (_choreography_client self) choreography true
               = Fails e ->
             execute_dance self fuel data initial =
             upload_handlers e
               {| time_calls := 0;
                  status_calls := 0;
                  trace := [ EvIsEstopped; EvMerge data;
                             EvUploadChoreography choreography true ] |}).
  { intros e Hupload.
    unfold execute_dance. run_call Hestop. run_attempt Hparse.
    now run_attempt Hupload. }
  split.
  - intros Hupload. now rewrite (Hrun _ Hupload).
  - intros warnings Hupload.
    rewrite (Hrun _ Hupload). cbn [upload_handlers ret].
    now rewrite warnings_appended.
Qed.

(** C7.  When the routine text does not parse, [execute_dance] returns
    failure with a message that ends with the parser's error detail, and
    the parse is its last call: nothing is uploaded. *)
Theorem execute_dance_parse_failure (fuel : nat) (data : string) (execp : exn) :
  is_estopped (_robot self) = Ok false ->
  text_format_Merge (runtime self) data = Fails execp ->
  execute_dance self fuel data initial =
  (Return
     (false, "Failed to load choreography. Raised exception: " ++ str execp),
   {| time_calls := 0;
      status_calls := 0;
      trace := [EvIsEstopped; EvMerge data] |}).
Proof.
  intros Hestop Hparse.
  unfold execute_dance. run_call Hestop. now run_attempt Hparse.
Qed.

(** C8.  For every routine with at least one move, the estimate that the
    loop of the source leaves behind, recomputed in every iteration, is the
    value of the single computation after the loop,
    [total_slices / slices_per_minute * 60]; when that computation raises
    (a zero rate), so does the loop, with the same exception. *)
Theorem estimate_in_loop_refines (slices_per_minute : float)
    (ms : list MoveParams) :
  ms <> [] ->
  well_formed ms ->
  estimate_in_loop self slices_per_minute ms =
  match estimate_after_loop self slices_per_minute ms with
  | Fails e => Fails e
  | Ok seconds => Ok (Some seconds)
  end.
Proof.
  intros Hne Hwf.
  unfold estimate_in_loop, estimate_after_loop.
  rewrite (estimate_loop_value self slices_per_minute ms Hne Hwf).
  destruct Hwf as [Hall Hlen].
  change (2 ^ 63) with 9223372036854775808 in Hlen.
  pose proof float_overflow_large as Hbig.
  pose proof (total_slices_bound ms Hall) as Hsum.
  rewrite truediv_in_range by lia.
  now destruct (slices_per_minute =? 0)%float.
Qed.

(** C9, as the code has it.  When the conversion of the animation file
    raises, [upload_animation] returns
    [(false, "Failed to convert animation file to protobuf message: <detail>")],
    a failure whose message names the conversion and ends with the
    converter's error detail, and the service is not contacted: the
    temporary directory is cleaned up and nothing is uploaded. *)
Theorem upload_animation_conversion_fails (animation_name content : string)
    (temp_dir : string) (e : exn) :
  TemporaryDirectory (runtime self) = Ok temp_dir ->
  write_file (runtime self)
    (os_path_join temp_dir (animation_name ++ ".cha")) content = Ok tt ->
  convert_animation_file_to_proto (runtime self)
    (os_path_join temp_dir (animation_name ++ ".cha")) content = Fails e ->
  upload_animation self animation_name content initial =
  (Return
     (false,
      "Failed to convert animation file to protobuf message: " ++ str e),
   {| time_calls := 0;
      status_calls := 0;
      trace :=
        [ EvTemporaryDirectory;
          EvWriteFile (os_path_join temp_dir (animation_name ++ ".cha"))
            content;
          EvConvert (os_path_join temp_dir (animation_name ++ ".cha"));
          EvCleanup temp_dir ] |}).
Proof.
  intros Hdir Hwrite Hconvert.
  unfold upload_animation. run_call Hdir.
  unfold finally. run_call Hwrite. now run_attempt Hconvert.
Qed.

(** C10.  For a routine that parses to zero moves, when the upload and the
    execute request succeed, [execute_dance] never asks for the status and
    returns the generic failure: [estimated_time_seconds] is bound only
    inside the loop over the moves, and reading it at the first guard
    raises. *)
Theorem execute_dance_no_moves (fuel : nat) (data : string)
    (choreography : ChoreographySequence) :
  starts_dancing self data choreography ->
  moves choreography = [] ->
  execute_dance self fuel data initial =
  (Return
     (false, "Error executing dance: " ++ unbound_local_text (runtime self)),
   {| time_calls := 3;
      status_calls := 0;
      trace := started_trace self data choreography |}).
Proof.
  intros Hstart Hmoves.
  rewrite (execute_dance_polls self fuel data choreography 0 None Hstart)
    by (rewrite Hmoves; reflexivity).
  unfold try_except. rewrite poll_unbound. reflexivity.
Qed.

End Claims.

(* ================================================================== *)
(** * Runs on the concrete robot *)

(** C3.  The estimate is [total_slices / slices_per_minute * 60] only where
    the loop over the moves runs.  For the routine without moves at 300
    slices per minute, whose estimate by that formula is [0 / 300 * 60 = 0]
    seconds, the loop of the source leaves [estimated_time_seconds]
    unbound, and [execute_dance], having started the dance, returns a
    generic failure without polling once. *)
Theorem estimate_unbound_without_moves :
  estimate_after_loop
    (Example.spot Example.ready (Example.service (Ok tt) Example.dances_on))
    (slices_per_minute Example.still) (moves Example.still) = Ok 0%float /\
  estimate_in_loop
    (Example.spot Example.ready (Example.service (Ok tt) Example.dances_on))
    (slices_per_minute Example.still) (moves Example.still) = Ok None /\
  execute_dance
    (Example.spot Example.ready (Example.service (Ok tt) Example.dances_on))
    1 Example.still_text initial =
  (Return
     (false,
      "Error executing dance: cannot access local variable 'estimated_time_seconds' where it is not associated with a value"),
   {| time_calls := 3;
      status_calls := 0;
      trace := [ EvIsEstopped;
                 EvMerge Example.still_text;
                 EvUploadChoreography Example.still true;
                 EvPowerOn;
                 EvExecuteChoreography "still" 1000 0 ] |}).
Proof. repeat split; vm_compute; reflexivity. Qed.

(** C6.  The message for the authorization error is the literal of line
    117 alone.  The sentence that directs the operator to the license,
    the literal of line 118, is an expression statement after the
    assignment and never reaches the message: on a robot whose license
    lacks the permission, [execute_dance] returns a failure whose message
    says what the license must contain and does not say how to obtain it.
    The upload is the last call of the run. *)
Theorem license_guidance_dropped :
  execute_dance
    (Example.spot Example.ready
       (Example.service (Fails (UnauthenticatedError "Unauthenticated"))
          Example.dances_on))
    0 Example.twist_text initial =
  (Return
     (false,
      "The robot license must contain 'choreography' permissions to upload and execute dances."),
   {| time_calls := 0;
      status_calls := 0;
      trace := [ EvIsEstopped;
                 EvMerge Example.twist_text;
                 EvUploadChoreography Example.twist true ] |}) /\
  contains license_guidance
    "The robot license must contain 'choreography' permissions to upload and execute dances."
  = false /\
  "The robot license must contain 'choreography' permissions to upload and execute dances."
  <> "The robot license must contain 'choreography' permissions to upload and execute dances."
       ++ license_guidance.
Proof.
  split; [|split].
  - vm_compute. reflexivity.
  - vm_compute. reflexivity.
  - vm_compute. discriminate.
Qed.

(** C4 fails as stated: an error of [upload_choreography] that is neither
    the authorization error nor a response error (here, a lost connection)
    is not turned into a result; it reaches the caller. *)
Lemma upload_error_propagates :
  fst (execute_dance
         (Example.spot Example.ready
            (Example.service (Fails (OtherException "Unable to connect to robot"))
               Example.dances_on))
         1 Example.twist_text initial)
  = Raise (OtherException "Unable to connect to robot") /\
  fst (execute_dance
         (Example.spot Example.ready
            (Example.service (Fails (OtherException "Unable to connect to robot"))
               Example.dances_on))
         1 Example.twist_text initial)
  <> Return (false, "Error executing dance: Unable to connect to robot").
Proof. split; vm_compute; [reflexivity | discriminate]. Qed.

(** C9 fails as stated: the message of the failed conversion is not
    ["conversion failed: <detail>"]. *)
Lemma conversion_message_differs :
  convert_animation_file_to_proto Example.python "/tmp/tmpk3v9/wave.cha" ""
  = Fails (OtherException "Animation file is empty") /\
  fst (upload_animation
         (Example.spot Example.ready (Example.service (Ok tt) Example.dances_on))
         "wave" "" initial)
  <> Return (false, "conversion failed: Animation file is empty").
Proof. split; vm_compute; [reflexivity | discriminate]. Qed.

(** The robot dances on beyond the six seconds of the routine: after 24
    samples the window of 6.2 seconds has elapsed. *)
Lemma execute_dance_times_out_witness :
  execute_dance
    (Example.spot Example.ready (Example.service (Ok tt) Example.dances_on))
    24 Example.twist_text initial =
  (Raise
     (CommandTimedOutError
        "Call to execute_choreography did not return completion state in stipulated time"),
   {| time_calls := 27;
      status_calls := 24;
      trace :=
        (started_trace
           (Example.spot Example.ready
              (Example.service (Ok tt) Example.dances_on))
           Example.twist_text Example.twist
           ++ poll_events (repeat 1 24))%list |}).
Proof.
  apply (execute_dance_times_out
           (Example.spot Example.ready
              (Example.service (Ok tt) Example.dances_on))
           24 Example.twist_text Example.twist 30 6%float (repeat 1 24)).
  - repeat split; reflexivity.
  - reflexivity.
  - vm_compute. repeat split; reflexivity.
  - reflexivity.
  - vm_compute. repeat constructor.
Defined.

(** The robot reports the completed sequence at the fourth sample. *)
Lemma execute_dance_terminal_sample_witness :
  execute_dance
    (Example.spot Example.ready
       (Example.service (Ok tt) (Example.finishes_with 2)))
    3 Example.twist_text initial =
  (Return (true, "success"),
   {| time_calls := 6;
      status_calls := 4;
      trace :=
        (started_trace
           (Example.spot Example.ready
              (Example.service (Ok tt) (Example.finishes_with 2)))
           Example.twist_text Example.twist
           ++ poll_events [1; 1; 1]
           ++ [EvGetChoreographyStatus; EvLogInfo "2"])%list |}).
Proof.
  apply (proj2 (execute_dance_terminal_sample
                  (Example.spot Example.ready
                     (Example.service (Ok tt) (Example.finishes_with 2)))
                  3 Example.twist_text Example.twist 30 6%float [1; 1; 1] 2)).
  - repeat split; reflexivity.
  - reflexivity.
  - vm_compute. repeat split; reflexivity.
  - reflexivity.
  - reflexivity.
  - reflexivity.
  - vm_compute. repeat constructor.
Defined.

(** The connection drops at the third status request: a generic failure. *)
Lemma execute_dance_unclassified_witness :
  fst (execute_dance
         (Example.spot Example.ready (Example.service (Ok tt) Example.drops))
         2 Example.twist_text initial)
  = Return (false, "Error executing dance: Connection lost").
Proof.
  apply (execute_dance_unclassified
           (Example.spot Example.ready (Example.service (Ok tt) Example.drops))
           2 Example.twist_text Example.twist
           (OtherException "Connection lost")).
  - reflexivity.
  - reflexivity.
  - reflexivity.
  - apply (raises_status _ _ _ _ 30 6%float [1; 1]).
    + reflexivity.
    + reflexivity.
    + reflexivity.
    + vm_compute. repeat split; reflexivity.
    + reflexivity.
    + reflexivity.
    + vm_compute. repeat constructor.
Defined.

(** The estopped robot. *)
Lemma execute_dance_estopped_witness :
  execute_dance
    (Example.spot Example.estopped (Example.service (Ok tt) Example.dances_on))
    0 Example.twist_text initial =
  (Return (false, "Robot is estopped. Please use an external E-Stop client"),
   {| time_calls := 0; status_calls := 0; trace := [EvIsEstopped] |}).
Proof.
  apply (proj1 (execute_dance_estopped
                  (Example.spot Example.estopped
                     (Example.service (Ok tt) Example.dances_on))
                  0 Example.twist_text eq_refl)).
Defined.

(** The upload is refused for the license, and rejected with two
    warnings. *)
Lemma execute_dance_upload_rejected_witness :
  fst (execute_dance
         (Example.spot Example.ready
            (Example.service (Fails (UnauthenticatedError "Unauthenticated"))
               Example.dances_on))
         0 Example.twist_text initial)
  = Return
      (false,
       "The robot license must contain 'choreography' permissions to upload and execute dances.")
  /\
  fst (execute_dance
         (Example.spot Example.ready
            (Example.service
               (Fails (ResponseError "Unauthenticated"
                         ["unknown move 'sway'; "; "routine too short"]))
               Example.dances_on))
         0 Example.twist_text initial)
  = Return
      (false,
       "Choreography sequence upload failed. The following warnings were produced: unknown move 'sway'; routine too short").
Proof.
  split.
  - apply (f_equal fst
             (proj1 (execute_dance_upload_rejected
                       (Example.spot Example.ready
                          (Example.service
                             (Fails (UnauthenticatedError "Unauthenticated"))
                             Example.dances_on))
                       0 Example.twist_text Example.twist "Unauthenticated"
                       eq_refl eq_refl)
                eq_refl)).
  - apply (f_equal fst
             (proj2 (execute_dance_upload_rejected
                       (Example.spot Example.ready
                          (Example.service
                             (Fails (ResponseError "Unauthenticated"
                                       ["unknown move 'sway'; ";
                                        "routine too short"]))
                             Example.dances_on))
                       0 Example.twist_text Example.twist "Unauthenticated"
                       eq_refl eq_refl)
                _ eq_refl)).
Defined.

(** A text that is no routine. *)
Lemma execute_dance_parse_failure_witness :
  execute_dance
    (Example.spot Example.ready (Example.service (Ok tt) Example.dances_on))
    0 Example.garbled_text initial =
  (Return
     (false,
      "Failed to load choreography. Raised exception: 1:6 : Expected ':'."),
   {| time_calls := 0;
      status_calls := 0;
      trace := [EvIsEstopped; EvMerge Example.garbled_text] |}).
Proof.
  apply (execute_dance_parse_failure
           (Example.spot Example.ready
              (Example.service (Ok tt) Example.dances_on))
           0 Example.garbled_text
           (OtherException "1:6 : Expected ':'.")
           eq_refl eq_refl).
Defined.

(** The two moves of the example: six seconds either way. *)
Lemma estimate_in_loop_refines_witness :
  estimate_in_loop
    (Example.spot Example.ready (Example.service (Ok tt) Example.dances_on))
    300 (moves Example.twist)
  = Ok (Some 6%float).
Proof.
  rewrite (estimate_in_loop_refines
             (Example.spot Example.ready
                (Example.service (Ok tt) Example.dances_on))
             300 (moves Example.twist)).
  - reflexivity.
  - discriminate.
  - split.
    + repeat constructor; unfold int32; cbn; lia.
    + cbn; lia.
Defined.

(** An empty animation file. *)
Lemma upload_animation_conversion_fails_witness :
  upload_animation
    (Example.spot Example.ready (Example.service (Ok tt) Example.dances_on))
    "wave" "" initial =
  (Return
     (false,
      "Failed to convert animation file to protobuf message: Animation file is empty"),
   {| time_calls := 0;
      status_calls := 0;
      trace := [ EvTemporaryDirectory;
                 EvWriteFile "/tmp/tmpk3v9/wave.cha" "";
                 EvConvert "/tmp/tmpk3v9/wave.cha";
                 EvCleanup "/tmp/tmpk3v9" ] |}).
Proof.
  apply (upload_animation_conversion_fails
           (Example.spot Example.ready
              (Example.service (Ok tt) Example.dances_on))
           "wave" "" "/tmp/tmpk3v9" (OtherException "Animation file is empty")
           eq_refl eq_refl eq_refl).
Defined.

(** The routine without moves. *)
Lemma execute_dance_no_moves_witness :
  execute_dance
    (Example.spot Example.ready (Example.service (Ok tt) Example.dances_on))
    5 Example.still_text initial =
  (Return
     (false,
      "Error executing dance: cannot access local variable 'estimated_time_seconds' where it is not associated with a value"),
   {| time_calls := 3;
      status_calls := 0;
      trace :=
        started_trace
          (Example.spot Example.ready
             (Example.service (Ok tt) Example.dances_on))
          Example.still_text Example.still |}).
Proof.
  apply (execute_dance_no_moves
           (Example.spot Example.ready
              (Example.service (Ok tt) Example.dances_on))
           5 Example.still_text Example.still).
  - repeat split; reflexivity.
  - reflexivity.
Defined.

(* ================================================================== *)
(** * Beyond the claims: every way a run can end *)

(** ** The polling loop *)

Section PollingEnds.

Variable self : SpotDance.

Lemma state_eq (t t' k k' : nat) (tr tr' : list event) :
  t = t' -> k = k' -> tr = tr' ->
  {| time_calls := t; status_calls := k; trace := tr |} =
  {| time_calls := t'; status_calls := k'; trace := tr' |}.
Proof. now intros -> -> ->. Qed.

(** A round with an ongoing sample in front of a run of the loop. *)
Lemma poll_ends_round (fuel : nat) (start seconds : float) (status : Z)
    (s s' : state) (r : outcome (bool * string)) :
  within_window start seconds (time_time (runtime self) (time_calls s)) = true ->
  get_choreography_status (_choreography_client self) (status_calls s)
    = Ok status ->
  _check_dance_completed self status = false ->
  poll_ends self fuel start seconds (after_rounds s [status]) r s' ->
  poll_ends self (S fuel) start seconds s r s'.
Proof.
  intros Hguard Hstatus Hongoing Hends.
  assert (Hkeep' : forall rest,
             keeps_polling self start seconds
               (time_calls (after_rounds s [status]))
               (status_calls (after_rounds s [status])) rest ->
             keeps_polling self start seconds (time_calls s) (status_calls s)
               (status :: rest)).
  { intros rest Hrest. cbn [after_rounds time_calls status_calls List.length] in Hrest.
    rewrite !Nat.add_1_r in Hrest. cbn [keeps_polling]. now repeat split. }
  destruct Hends as [rest Hkeep Hlen Hend
                    |rest e Hkeep Hlen Hend Hfails
                    |rest final Hkeep Hlen Hend Hfinal Hterminal
                    |rest Hkeep Hlen];
    cbn [after_rounds time_calls status_calls trace List.length] in *.
  - replace (time_calls s + 1 + List.length rest)%nat
      with (time_calls s + List.length (status :: rest))%nat in *
      by (cbn [List.length]; lia).
    replace (status_calls s + 1 + List.length rest)%nat
      with (status_calls s + List.length (status :: rest))%nat
      by (cbn [List.length]; lia).
    replace ((trace s ++ poll_events [status]) ++ poll_events rest)%list
      with (trace s ++ poll_events (status :: rest))%list
      by (unfold poll_events; cbn; now rewrite <- !app_assoc).
    apply ends_window_elapsed; [now apply Hkeep'|cbn [List.length]; lia|exact Hend].
  - replace (time_calls s + 1 + List.length rest)%nat
      with (time_calls s + List.length (status :: rest))%nat in *
      by (cbn [List.length]; lia).
    replace (status_calls s + 1 + List.length rest)%nat
      with (status_calls s + List.length (status :: rest))%nat in *
      by (cbn [List.length]; lia).
    replace ((trace s ++ poll_events [status]) ++ poll_events rest
               ++ [EvGetChoreographyStatus])%list
      with (trace s ++ poll_events (status :: rest)
              ++ [EvGetChoreographyStatus])%list
      by (unfold poll_events; cbn; now rewrite <- !app_assoc).
    apply ends_status_raises;
      [now apply Hkeep'|cbn [List.length]; lia|exact Hend|exact Hfails].
  - replace (time_calls s + 1 + List.length rest)%nat
      with (time_calls s + List.length (status :: rest))%nat in *
      by (cbn [List.length]; lia).
    replace (status_calls s + 1 + List.length rest)%nat
      with (status_calls s + List.length (status :: rest))%nat in *
      by (cbn [List.length]; lia).
    replace ((trace s ++ poll_events [status]) ++ poll_events rest
               ++ [EvGetChoreographyStatus; EvLogInfo (string_of_Z final)])%list
      with (trace s ++ poll_events (status :: rest)
              ++ [EvGetChoreographyStatus; EvLogInfo (string_of_Z final)])%list
      by (unfold poll_events; cbn; now rewrite <- !app_assoc).
    apply ends_terminal;
      [now apply Hkeep'|cbn [List.length]; lia|exact Hend|exact Hfinal
      |exact Hterminal].
  - change {| time_calls := time_calls s + 1 + List.length rest;
              status_calls := status_calls s + 1 + List.length rest;
              trace := ((trace s ++ poll_events [status])
                          ++ poll_events rest)%list |}
      with (after_rounds (after_rounds s [status]) rest).
    rewrite after_rounds_cons.
    apply ends_out_of_fuel; [now apply Hkeep'|cbn [List.length]; lia].
Qed.

(** Every run of the loop ends in one of the four ways. *)
Lemma poll_inv (start seconds : float) (fuel : nat) :
  forall (s s' : state) (r : outcome (bool * string)),
    poll self fuel start (Some seconds) s = (r, s') ->
    poll_ends self fuel start seconds s r s'.
Proof.
  induction fuel as [|fuel IH]; intros s s' r Hrun.
  all: destruct (within_window start seconds
                   (time_time (runtime self) (time_calls s))) eqn:Hguard;
    [ destruct (get_choreography_status (_choreography_client self)
                  (status_calls s)) as [status|e0] eqn:Hstatus;
      [ destruct (_check_dance_completed self status) eqn:Hcheck | ]
    | ].
  all: try (rewrite (poll_terminal _ _ _ _ status _ Hguard Hstatus Hcheck) in Hrun;
            injection Hrun as <- <-;
            match goal with |- poll_ends _ ?f _ _ _ _ _ =>
              pose proof (ends_terminal self f start seconds s [] status) as Hend end;
            cbn [List.length keeps_polling poll_events flat_map app] in Hend;
            rewrite !Nat.add_0_r in Hend;
            apply Hend; [exact I|lia|assumption..]).
  all: try (rewrite (poll_status_raises _ _ _ _ e0 _ Hguard Hstatus) in Hrun;
            injection Hrun as <- <-;
            match goal with |- poll_ends _ ?f _ _ _ _ _ =>
              pose proof (ends_status_raises self f start seconds s [] e0) as Hend end;
            cbn [List.length keeps_polling poll_events flat_map app] in Hend;
            rewrite !Nat.add_0_r in Hend;
            apply Hend; [exact I|lia|assumption..]).
  all: try (rewrite (poll_window_elapsed _ _ _ _ _ Hguard) in Hrun;
            injection Hrun as <- <-;
            match goal with |- poll_ends _ ?f _ _ _ _ _ =>
              pose proof (ends_window_elapsed self f start seconds s []) as Hend end;
            cbn [List.length keeps_polling poll_events flat_map] in Hend;
            rewrite !Nat.add_0_r, app_nil_r in Hend;
            apply Hend; [exact I|lia|assumption]).
  - rewrite (poll_out_of_fuel _ _ _ status _ Hguard Hstatus Hcheck) in Hrun.
    injection Hrun as <- <-.
    apply ends_out_of_fuel; [cbn; now repeat split|reflexivity].
  - rewrite (poll_round _ fuel _ _ status _ Hguard Hstatus Hcheck) in Hrun.
    apply IH in Hrun.
    now apply (poll_ends_round fuel start seconds status).
Qed.

(** The loop leaves nothing but its own events in the trace. *)
Lemma poll_events_only (statuses : list Z) :
  forallb is_poll_event (poll_events statuses) = true.
Proof.
  induction statuses as [|status rest IH]; [reflexivity|].
  unfold poll_events in *. cbn. exact IH.
Qed.

End PollingEnds.

(** ** Runs, answer by answer *)

Section RunsEnd.

Variable self : SpotDance.

(** The body of the last [try] block, by the answers it gets. *)
Lemma dance_run (fuel : nat) (choreography : ChoreographySequence)
    (tr : list event) :
  dance self fuel choreography
    {| time_calls := 0; status_calls := 0; trace := tr |} =
  match power_on (_robot self) with
  | Fails e =>
      (Raise e,
       {| time_calls := 0; status_calls := 0;
          trace := (tr ++ [EvPowerOn])%list |})
  | Ok _ =>
      let requested :=
        {| time_calls := 1; status_calls := 0;
           trace := (tr ++ [ EvPowerOn;
                             EvExecuteChoreography (name choreography)
                               (time_time (runtime self) 0) 0 ])%list |} in
      match execute_choreography (_choreography_client self)
              (name choreography) (time_time (runtime self) 0) 0 with
      | Fails e => (Raise e, requested)
      | Ok status =>
          if status =? STATUS_OK (pb2 self) then
            match estimate_loop self (slices_per_minute choreography)
                    (moves choreography) 0 None with
            | Fails e => (Raise e, requested)
            | Ok locals =>
                poll self fuel (time_time (runtime self) 1) (snd locals)
                  {| time_calls := 2; status_calls := 0;
                     trace := trace requested |}
            end
          else
            (Return
               (false,
                "Issue calling execute_choreography, got response.status: "
                  ++ string_of_Z status),
             requested)
      end
  end.
Proof.
  unfold dance, bind at 1, call at 1.
  destruct (power_on (_robot self)) as [[]|e]; [|reflexivity].
  run_time. unfold bind at 1, call at 1.
  unfold record; cbn [time_calls status_calls trace].
  rewrite <- app_assoc; cbn [app].
  destruct (execute_choreography (_choreography_client self)
              (name choreography) (time_time (runtime self) 0) 0)
    as [status|e]; [|reflexivity].
  destruct (status =? STATUS_OK (pb2 self)); cbn [negb]; [|reflexivity].
  unfold bind at 1, eval at 1.
  destruct (estimate_loop self (slices_per_minute choreography)
              (moves choreography) 0 None) as [locals|e]; reflexivity.
Qed.

(** [execute_dance], by the answers it gets before the last [try] block. *)
Lemma execute_dance_run (fuel : nat) (data : string) :
  execute_dance self fuel data initial =
  match is_estopped (_robot self) with
  | Fails e =>
      (Raise e,
       {| time_calls := 0; status_calls := 0; trace := [EvIsEstopped] |})
  | Ok true =>
      (Return
         (false, "Robot is estopped. Please use an external E-Stop client"),
       {| time_calls := 0; status_calls := 0; trace := [EvIsEstopped] |})
  | Ok false =>
      match text_format_Merge (runtime self) data with
      | Fails execp =>
          (Return
             (false,
              "Failed to load choreography. Raised exception: " ++ str execp),
           {| time_calls := 0; status_calls := 0;
              trace := [EvIsEstopped; EvMerge data] |})
      | Ok choreography =>
          let uploaded :=
            {| time_calls := 0; status_calls := 0;
               trace := [ EvIsEstopped; EvMerge data;
                          EvUploadChoreography choreography true ] |} in
          match upload_choreography (_choreography_client self)
                  choreography true with
          | Fails e => upload_handlers e uploaded
          | Ok _ =>
              try_except (dance self fuel choreography) dance_handlers
                uploaded
          end
      end
  end.
Proof.
  unfold execute_dance, bind at 1, call at 1.
  destruct (is_estopped (_robot self)) as [[|]|e]; try reflexivity.
  unfold bind at 1, attempt at 1, try_except at 1, bind at 1, call at 1.
  destruct (text_format_Merge (runtime self) data) as [choreography|execp];
    [|reflexivity].
  cbn [ret].
  unfold bind at 1, attempt at 1, try_except at 1, bind at 1, call at 1.
  destruct (upload_choreography (_choreography_client self) choreography true)
    as [[]|e]; reflexivity.
Qed.

(** The handlers of the last [try] block never report success, and raise
    nothing but the timeout with its message. *)
Lemma dance_handlers_inv (e : exn) (s s' : state)
    (r : outcome (bool * string)) :
  dance_handlers e s = (r, s') ->
  s' = s /\
  (r = Return (false, "Error executing dance: " ++ str e) \/
   r = Raise
         (CommandTimedOutError
            "Call to execute_choreography did not return completion state in stipulated time")).
Proof.
  rewrite dance_handlers_result.
  destruct (is_CommandTimedOutError e); intros [= <- <-]; auto.
Qed.

(** The handlers of the upload never report success either. *)
Lemma upload_handlers_inv (e : exn) (s s' : state)
    (r : outcome (bool * string)) :
  upload_handlers e s = (r, s') ->
  s' = s /\ ((exists msg, r = Return (false, msg)) \/ r = Raise e).
Proof.
  destruct e; cbn; intros [= <- <-]; split; eauto.
Qed.

(** What the polling loop adds to the trace are its own events, and none
    when there is no estimate. *)
Lemma poll_trace (fuel : nat) (start : float) (est : option float)
    (s s' : state) (r : outcome (bool * string)) :
  poll self fuel start est s = (r, s') ->
  exists tail : list event,
    trace s' = (trace s ++ tail)%list /\
    forallb is_poll_event tail = true /\
    (est = None -> tail = []).
Proof.
  destruct est as [seconds|].
  - intros Hrun. apply poll_inv in Hrun.
    destruct Hrun as [statuses _ _ _
                     |statuses e _ _ _ _
                     |statuses status _ _ _ _ _
                     |statuses _ _];
      cbn [trace after_rounds].
    + exists (poll_events statuses). repeat split; [|discriminate].
      apply poll_events_only.
    + exists (poll_events statuses ++ [EvGetChoreographyStatus])%list.
      repeat split; [|discriminate].
      now rewrite forallb_app, poll_events_only.
    + exists (poll_events statuses
                ++ [EvGetChoreographyStatus; EvLogInfo (string_of_Z status)])%list.
      repeat split; [|discriminate].
      now rewrite forallb_app, poll_events_only.
    + exists (poll_events statuses). repeat split; [|discriminate].
      apply poll_events_only.
  - rewrite poll_unbound. intros [= <- <-]. exists []. cbn.
    now rewrite app_nil_r.
Qed.

(** The trace of every run, whatever its end: what was called, and what
    had been answered before. *)
Lemma execute_dance_trace_inv (fuel : nat) (data : string)
    (r : outcome (bool * string)) (s' : state) :
  execute_dance self fuel data initial = (r, s') ->
  trace s' = [EvIsEstopped] \/
  (is_estopped (_robot self) = Ok false /\
   (trace s' = [EvIsEstopped; EvMerge data] \/
    exists choreography : ChoreographySequence,
      text_format_Merge (runtime self) data = Ok choreography /\
      (trace s' = [ EvIsEstopped; EvMerge data;
                    EvUploadChoreography choreography true ] \/
       (upload_choreography (_choreography_client self) choreography true
          = Ok tt /\
        (trace s' = [ EvIsEstopped; EvMerge data;
                      EvUploadChoreography choreography true; EvPowerOn ] \/
         (power_on (_robot self) = Ok tt /\
          exists tail : list event,
            trace s' = (started_trace self data choreography ++ tail)%list /\
            forallb is_poll_event tail = true /\
            (tail <> [] ->
             execute_choreography (_choreography_client self)
               (name choreography) (time_time (runtime self) 0) 0
               = Ok (STATUS_OK (pb2 self)) /\
             exists (total : Z) (seconds : float),
               estimate_loop self (slices_per_minute choreography)
                 (moves choreography) 0 None = Ok (total, Some seconds)))))))).
Proof.
  intros Hrun. rewrite execute_dance_run in Hrun.
  destruct (is_estopped (_robot self)) as [[|]|e];
    try (injection Hrun as _ <-; now left).
  right. split; [reflexivity|].
  destruct (text_format_Merge (runtime self) data) as [choreography|execp];
    [|injection Hrun as _ <-; now left].
  right. exists choreography. split; [reflexivity|].
  cbn zeta in Hrun.
  destruct (upload_choreography (_choreography_client self) choreography true)
    as [[]|e].
  2:{ apply upload_handlers_inv in Hrun. destruct Hrun as [-> _]. now left. }
  right. split; [reflexivity|].
  unfold try_except in Hrun. rewrite dance_run in Hrun.
  assert (Hhandled : forall (e : exn) (s : state),
             dance_handlers e s = (r, s') -> trace s' = trace s)
    by (intros e s H; apply dance_handlers_inv in H; now destruct H as [-> _]).
  destruct (power_on (_robot self)) as [[]|e];
    [|apply Hhandled in Hrun; now left].
  right. split; [reflexivity|].
  cbn zeta in Hrun.
  assert (Hbare : forall s : state,
             trace s = started_trace self data choreography ->
             trace s' = trace s ->
             exists tail : list event,
               trace s' = (started_trace self data choreography ++ tail)%list /\
               forallb is_poll_event tail = true /\
               (tail <> [] ->
                execute_choreography (_choreography_client self)
                  (name choreography) (time_time (runtime self) 0) 0
                  = Ok (STATUS_OK (pb2 self)) /\
                exists (total : Z) (seconds : float),
                  estimate_loop self (slices_per_minute choreography)
                    (moves choreography) 0 None = Ok (total, Some seconds))).
  { intros s Hs Hs'. exists []. rewrite app_nil_r, Hs', Hs.
    repeat split; congruence. }
  destruct (execute_choreography (_choreography_client self)
              (name choreography) (time_time (runtime self) 0) 0)
    as [status|e].
  2:{ apply Hhandled in Hrun. now apply Hbare in Hrun. }
  destruct (status =? STATUS_OK (pb2 self)) eqn:Hok.
  2:{ injection Hrun as _ <-. eapply Hbare; [|reflexivity]; reflexivity. }
  apply Z.eqb_eq in Hok. subst status.
  destruct (estimate_loop self (slices_per_minute choreography)
              (moves choreography) 0 None) as [[total est]|e].
  2:{ apply Hhandled in Hrun. now apply Hbare in Hrun. }
  cbn [snd trace] in Hrun.
  destruct (poll self fuel (time_time (runtime self) 1) est _)
    as [r0 s0] eqn:Hpoll.
  apply poll_trace in Hpoll. destruct Hpoll as (tail & Htrace & Hevents & Hnone).
  cbn [trace] in Htrace.
  assert (Htr : trace s' = trace s0).
  { destruct r0; try (now injection Hrun as _ <-).
    now apply Hhandled in Hrun. }
  exists tail. rewrite Htr, Htrace.
  split; [reflexivity|]. split; [assumption|].
  intros Htail. split; [reflexivity|].
  destruct est as [seconds|]; [now exists total, seconds|].
  now elim Htail; apply Hnone.
Qed.

End RunsEnd.

(** ** execute_dance: refusals, a zero rate, and what every run obeys *)

Section MoreOfExecuteDance.

Variable self : SpotDance.

(** X1.  When the execute request is answered with a status other than
    [STATUS_OK], [execute_dance] returns failure with the raw status in the
    message; no estimate is made, the clock is not read again and the
    status is never polled (lines 137-138). *)
Theorem execute_dance_start_refused (fuel : nat) (data : string)
    (choreography : ChoreographySequence) (status : Z) :
  is_estopped (_robot self) = Ok false ->
  text_format_Merge (runtime self) data = Ok choreography ->
  upload_choreography (_choreography_client self) choreography true = Ok tt ->
  power_on (_robot self) = Ok tt ->
  execute_choreography (_choreography_client self) (name choreography)
    (time_time (runtime self) 0) 0 = Ok status ->
  status <> STATUS_OK (pb2 self) ->
  execute_dance self fuel data initial =
  (Return
     (false,
      "Issue calling execute_choreography, got response.status: "
        ++ string_of_Z status),
   {| time_calls := 1;
      status_calls := 0;
      trace := started_trace self data choreography |}).
Proof.
  intros Hestop Hparse Hupload Hpower Hexecute Hstatus.
  rewrite execute_dance_run, Hestop, Hparse. cbn zeta. rewrite Hupload.
  unfold try_except. rewrite dance_run, Hpower. cbn zeta. rewrite Hexecute.
  apply Z.eqb_neq in Hstatus. now rewrite Hstatus.
Qed.

(** X2.  For a routine with at least one move whose rate is zero, the
    division of the first iteration raises [ZeroDivisionError]: the dance
    has been started, and [execute_dance] returns the generic failure with
    the text of that error without polling the status (lines 140-144,
    161-162). *)
Theorem execute_dance_zero_rate (fuel : nat) (data : string)
    (choreography : ChoreographySequence) :
  starts_dancing self data choreography ->
  moves choreography <> [] ->
  well_formed (moves choreography) ->
  (slices_per_minute choreography =? 0)%float = true ->
  execute_dance self fuel data initial =
  (Return
     (false, "Error executing dance: " ++ zero_division_text (runtime self)),
   {| time_calls := 1;
      status_calls := 0;
      trace := started_trace self data choreography |}).
Proof.
  intros Hstart Hmoves Hwf Hzero.
  rewrite (execute_dance_started self fuel data choreography Hstart).
  unfold try_except, bind at 1, eval at 1.
  rewrite (estimate_loop_value self _ _ Hmoves Hwf), Hzero.
  reflexivity.
Qed.

(** X3.  [execute_dance] reports success only for a completed sequence:
    when it returns [True], the message is ["success"], the run started
    dancing with an estimate, every earlier sample was ongoing and within
    the window, and the last status request, within the window too, was
    answered with [STATUS_COMPLETED_SEQUENCE]. *)
Theorem execute_dance_success_inv (fuel : nat) (data msg : string)
    (s' : state) :
  execute_dance self fuel data initial = (Return (true, msg), s') ->
  msg = "success" /\
  exists (choreography : ChoreographySequence) (total : Z) (seconds : float)
         (statuses : list Z),
    starts_dancing self data choreography /\
    estimate_loop self (slices_per_minute choreography) (moves choreography)
      0 None = Ok (total, Some seconds) /\
    keeps_polling self (time_time (runtime self) 1) seconds 2 0 statuses /\
    within_window (time_time (runtime self) 1) seconds
      (time_time (runtime self) (2 + List.length statuses)) = true /\
    get_choreography_status (_choreography_client self) (List.length statuses)
      = Ok (STATUS_COMPLETED_SEQUENCE (pb2 self)) /\
    status_calls s' = S (List.length statuses).
Proof.
  intros Hrun. rewrite execute_dance_run in Hrun.
  destruct (is_estopped (_robot self)) as [[|]|e] eqn:Hestop; try discriminate.
  destruct (text_format_Merge (runtime self) data) as [choreography|execp]
    eqn:Hparse; [|discriminate].
  cbn zeta in Hrun.
  destruct (upload_choreography (_choreography_client self) choreography true)
    as [[]|e] eqn:Hupload.
  2:{ apply upload_handlers_inv in Hrun.
      destruct Hrun as [_ [[? ?]|?]]; discriminate. }
  unfold try_except in Hrun. rewrite dance_run in Hrun.
  assert (Hhandled : forall (e : exn) (s : state),
             dance_handlers e s <> (Return (true, msg), s')).
  { intros e s H. apply dance_handlers_inv in H.
    destruct H as [_ [?|?]]; discriminate. }
  destruct (power_on (_robot self)) as [[]|e] eqn:Hpower;
    [|now elim (Hhandled _ _ Hrun)].
  cbn zeta in Hrun.
  destruct (execute_choreography (_choreography_client self)
              (name choreography) (time_time (runtime self) 0) 0)
    as [status|e] eqn:Hexecute; [|now elim (Hhandled _ _ Hrun)].
  destruct (status =? STATUS_OK (pb2 self)) eqn:Hok; [|discriminate].
  apply Z.eqb_eq in Hok. subst status.
  destruct (estimate_loop self (slices_per_minute choreography)
              (moves choreography) 0 None) as [[total est]|e] eqn:Hestimate;
    [|now elim (Hhandled _ _ Hrun)].
  cbn [snd trace] in Hrun.
  destruct est as [seconds|];
    [|rewrite poll_unbound in Hrun; now elim (Hhandled _ _ Hrun)].
  destruct (poll self fuel (time_time (runtime self) 1) (Some seconds) _)
    as [r0 s0] eqn:Hpoll.
  apply poll_inv in Hpoll.
  destruct Hpoll as [statuses Hkeep Hlen Hend
                    |statuses e Hkeep Hlen Hend Hfails
                    |statuses final Hkeep Hlen Hend Hfinal Hterminal
                    |statuses Hkeep Hlen];
    try (now elim (Hhandled _ _ Hrun)); [|discriminate].
  cbn [time_calls status_calls] in *.
  destruct (final =? STATUS_COMPLETED_SEQUENCE (pb2 self)) eqn:Hcompleted;
    [|discriminate].
  apply Z.eqb_eq in Hcompleted. subst final.
  injection Hrun as <- <-.
  split; [reflexivity|].
  exists choreography, total, seconds, statuses.
  repeat split; assumption || reflexivity.
Qed.

(** X4.  The only exceptions that [execute_dance] lets out are the one of
    [is_estopped()], the one of [upload_choreography] when it is neither
    the authorization error nor a response error, and the timeout with its
    message; a failing parse, power-on, execute request or status request
    never reaches the caller as an exception. *)
Theorem execute_dance_raises_inv (fuel : nat) (data : string) (e : exn)
    (s' : state) :
  execute_dance self fuel data initial = (Raise e, s') ->
  is_estopped (_robot self) = Fails e \/
  (exists choreography : ChoreographySequence,
      is_estopped (_robot self) = Ok false /\
      text_format_Merge (runtime self) data = Ok choreography /\
      upload_choreography (_choreography_client self) choreography true
        = Fails e /\
      (forall detail, e <> UnauthenticatedError detail) /\
      (forall detail warnings, e <> ResponseError detail warnings)) \/
  e = CommandTimedOutError
        "Call to execute_choreography did not return completion state in stipulated time".
Proof.
  intros Hrun. rewrite execute_dance_run in Hrun.
  destruct (is_estopped (_robot self)) as [[|]|e0] eqn:Hestop;
    try discriminate; [|injection Hrun as <- _; now left].
  destruct (text_format_Merge (runtime self) data) as [choreography|execp]
    eqn:Hparse; [|discriminate].
  cbn zeta in Hrun.
  destruct (upload_choreography (_choreography_client self) choreography true)
    as [[]|e0] eqn:Hupload.
  - right; right.
    unfold try_except in Hrun.
    destruct (dance self fuel choreography _) as [[result|e0|] s0];
      try discriminate.
    apply dance_handlers_inv in Hrun.
    destruct Hrun as [_ [?|?]]; congruence.
  - right; left. exists choreography.
    destruct e0; unfold upload_handlers, raise, ret in Hrun;
      try discriminate;
      injection Hrun as <- _; repeat split; assumption || discriminate.
Qed.

(** X5.  The dance is started only on a robot that is ready for it: in
    every run, whatever its end, an execute request in the trace means
    that the robot was not estopped, the text parsed, the upload and the
    power-on succeeded, and the request names the parsed routine, carries
    the first clock reading and starts at slice 0. *)
Theorem execute_dance_execute_inv (fuel : nat) (data : string)
    (r : outcome (bool * string)) (s' : state)
    (choreography_name : string) (client_start_time : float)
    (start_slice : Z) :
  execute_dance self fuel data initial = (r, s') ->
  In (EvExecuteChoreography choreography_name client_start_time start_slice)
    (trace s') ->
  is_estopped (_robot self) = Ok false /\
  (exists choreography : ChoreographySequence,
      text_format_Merge (runtime self) data = Ok choreography /\
      upload_choreography (_choreography_client self) choreography true
        = Ok tt /\
      choreography_name = name choreography) /\
  power_on (_robot self) = Ok tt /\
  client_start_time = time_time (runtime self) 0 /\
  start_slice = 0.
Proof.
  intros Hrun Hin. apply execute_dance_trace_inv in Hrun.
  destruct Hrun
    as [Htrace
       |(Hestop & [Htrace
                  |(choreography & Hparse & [Htrace
                     |(Hupload & [Htrace
                        |(Hpower & tail & Htrace & Hevents & _)])])])];
    rewrite Htrace in Hin;
    try (cbn in Hin; repeat destruct Hin as [Hin|Hin]; discriminate || contradiction).
  apply in_app_or in Hin. destruct Hin as [Hin|Hin].
  - cbn in Hin. repeat destruct Hin as [Hin|Hin];
      try discriminate; try contradiction.
    injection Hin as <- <- <-.
    repeat split; try assumption. now exists choreography.
  - rewrite forallb_forall in Hevents. apply Hevents in Hin. discriminate.
Qed.

(** X6.  The status is polled only while a dance runs: in every run a
    status request in the trace means that the run started dancing (not
    estopped, parsed, uploaded, powered on, execute answered [STATUS_OK])
    and that the loop over the moves had bound an estimate. *)
Theorem execute_dance_status_inv (fuel : nat) (data : string)
    (r : outcome (bool * string)) (s' : state) :
  execute_dance self fuel data initial = (r, s') ->
  In EvGetChoreographyStatus (trace s') ->
  exists (choreography : ChoreographySequence) (total : Z) (seconds : float),
    starts_dancing self data choreography /\
    estimate_loop self (slices_per_minute choreography) (moves choreography)
      0 None = Ok (total, Some seconds).
Proof.
  intros Hrun Hin. apply execute_dance_trace_inv in Hrun.
  destruct Hrun
    as [Htrace
       |(Hestop & [Htrace
                  |(choreography & Hparse & [Htrace
                     |(Hupload & [Htrace
                        |(Hpower & tail & Htrace & Hevents & Hstarted)])])])];
    rewrite Htrace in Hin;
    try (cbn in Hin; repeat destruct Hin as [Hin|Hin]; discriminate || contradiction).
  apply in_app_or in Hin. destruct Hin as [Hin|Hin].
  - cbn in Hin. repeat destruct Hin as [Hin|Hin]; discriminate || contradiction.
  - destruct Hstarted as (Hexecute & total & seconds & Hestimate);
      [intros ->; contradiction|].
    exists choreography, total, seconds. now repeat split.
Qed.

(** X7.  What is uploaded is what was parsed: in every run an upload in
    the trace carries the routine that [data] parses to, in non-strict
    mode, and was made on a robot that is not estopped. *)
Theorem execute_dance_upload_inv (fuel : nat) (data : string)
    (r : outcome (bool * string)) (s' : state)
    (choreography : ChoreographySequence) (non_strict_parsing : bool) :
  execute_dance self fuel data initial = (r, s') ->
  In (EvUploadChoreography choreography non_strict_parsing) (trace s') ->
  is_estopped (_robot self) = Ok false /\
  text_format_Merge (runtime self) data = Ok choreography /\
  non_strict_parsing = true.
Proof.
  intros Hrun Hin. apply execute_dance_trace_inv in Hrun.
  destruct Hrun
    as [Htrace
       |(Hestop & [Htrace
                  |(parsed & Hparse & [Htrace
                     |(Hupload & [Htrace
                        |(Hpower & tail & Htrace & Hevents & _)])])])];
    rewrite Htrace in Hin.
  1-4: cbn in Hin; repeat destruct Hin as [Hin|Hin];
    try discriminate; try contradiction;
    injection Hin as <- <-; now repeat split.
  apply in_app_or in Hin. destruct Hin as [Hin|Hin].
  - cbn in Hin. repeat destruct Hin as [Hin|Hin];
      try discriminate; try contradiction.
    injection Hin as <- <-. now repeat split.
  - rewrite forallb_forall in Hevents. apply Hevents in Hin. discriminate.
Qed.

End MoreOfExecuteDance.

(** ** upload_animation: every way it ends *)

Section MoreOfUploadAnimation.

Variable self : SpotDance.

(** [upload_animation], by the answers it gets. *)
Lemma upload_animation_run (animation_name content : string) :
  upload_animation self animation_name content initial =
  match TemporaryDirectory (runtime self) with
  | Fails e =>
      (Raise e,
       {| time_calls := 0; status_calls := 0;
          trace := [EvTemporaryDirectory] |})
  | Ok temp_dir =>
      let filename := os_path_join temp_dir (animation_name ++ ".cha") in
      match write_file (runtime self) filename content with
      | Fails e =>
          (Raise e,
           {| time_calls := 0; status_calls := 0;
              trace := [ EvTemporaryDirectory;
                         EvWriteFile filename content;
                         EvCleanup temp_dir ] |})
      | Ok _ =>
          match convert_animation_file_to_proto (runtime self) filename
                  content with
          | Fails e =>
              (Return
                 (false,
                  "Failed to convert animation file to protobuf message: "
                    ++ str e),
               {| time_calls := 0; status_calls := 0;
                  trace := [ EvTemporaryDirectory;
                             EvWriteFile filename content;
                             EvConvert filename;
                             EvCleanup temp_dir ] |})
          | Ok animation_pb =>
              (match upload_animated_move (_choreography_client self)
                       animation_pb animation_name with
               | Fails e =>
                   Return (false, "Failed to upload animation: " ++ str e)
               | Ok _ => Return (true, "Success")
               end,
               {| time_calls := 0; status_calls := 0;
                  trace := [ EvTemporaryDirectory;
                             EvWriteFile filename content;
                             EvConvert filename;
                             EvLogInfo ("Uploading the name " ++ animation_name);
                             EvUploadAnimatedMove animation_pb animation_name;
                             EvCleanup temp_dir ] |})
          end
      end
  end.
Proof.
  unfold upload_animation, bind at 1, call at 1.
  destruct (TemporaryDirectory (runtime self)) as [temp_dir|e]; [|reflexivity].
  unfold finally, bind at 1, call at 1. cbn zeta.
  destruct (write_file (runtime self) _ content) as [[]|e]; [|reflexivity].
  unfold bind at 1, attempt at 1, try_except at 1, bind at 1, call at 1.
  destruct (convert_animation_file_to_proto (runtime self) _ content)
    as [animation_pb|e]; [|reflexivity].
  cbn [ret].
  unfold bind at 1, attempt at 1, try_except at 1, bind at 1, bind at 1,
    logger_info at 1, call at 1.
  destruct (upload_animated_move (_choreography_client self) animation_pb
              animation_name) as [[]|e]; reflexivity.
Qed.

(** X8.  When the conversion and the upload succeed, [upload_animation]
    returns [(True, "Success")]: the file was written under the temporary
    directory, the proto the converter gave was uploaded under the name of
    the animation after the log line, and the directory was cleaned up
    last. *)
Theorem upload_animation_succeeds (animation_name content temp_dir : string)
    (animation_pb : Animation) :
  TemporaryDirectory (runtime self) = Ok temp_dir ->
  write_file (runtime self)
    (os_path_join temp_dir (animation_name ++ ".cha")) content = Ok tt ->
  convert_animation_file_to_proto (runtime self)
    (os_path_join temp_dir (animation_name ++ ".cha")) content
    = Ok animation_pb ->
  upload_animated_move (_choreography_client self) animation_pb animation_name
    = Ok tt ->
  upload_animation self animation_name content initial =
  (Return (true, "Success"),
   {| time_calls := 0;
      status_calls := 0;
      trace :=
        [ EvTemporaryDirectory;
          EvWriteFile (os_path_join temp_dir (animation_name ++ ".cha"))
            content;
          EvConvert (os_path_join temp_dir (animation_name ++ ".cha"));
          EvLogInfo ("Uploading the name " ++ animation_name);
          EvUploadAnimatedMove animation_pb animation_name;
          EvCleanup temp_dir ] |}).
Proof.
  intros Hdir Hwrite Hconvert Hupload.
  rewrite upload_animation_run, Hdir. cbn zeta.
  now rewrite Hwrite, Hconvert, Hupload.
Qed.

(** X9.  When the service refuses the animation, whatever the class of its
    error, [upload_animation] returns
    [(False, "Failed to upload animation: <detail>")] and cleans up. *)
Theorem upload_animation_upload_fails (animation_name content temp_dir : string)
    (animation_pb : Animation) (e : exn) :
  TemporaryDirectory (runtime self) = Ok temp_dir ->
  write_file (runtime self)
    (os_path_join temp_dir (animation_name ++ ".cha")) content = Ok tt ->
  convert_animation_file_to_proto (runtime self)
    (os_path_join temp_dir (animation_name ++ ".cha")) content
    = Ok animation_pb ->
  upload_animated_move (_choreography_client self) animation_pb animation_name
    = Fails e ->
  upload_animation self animation_name content initial =
  (Return (false, "Failed to upload animation: " ++ str e),
   {| time_calls := 0;
      status_calls := 0;
      trace :=
        [ EvTemporaryDirectory;
          EvWriteFile (os_path_join temp_dir (animation_name ++ ".cha"))
            content;
          EvConvert (os_path_join temp_dir (animation_name ++ ".cha"));
          EvLogInfo ("Uploading the name " ++ animation_name);
          EvUploadAnimatedMove animation_pb animation_name;
          EvCleanup temp_dir ] |}).
Proof.
  intros Hdir Hwrite Hconvert Hupload.
  rewrite upload_animation_run, Hdir. cbn zeta.
  now rewrite Hwrite, Hconvert, Hupload.
Qed.

(** X10.  Once the temporary directory exists it is always released:
    however [upload_animation] ends, with a tuple or with the exception of
    the file write, the last event of the run is the clean-up of that
    directory, and there is no other. *)
Theorem upload_animation_cleans_up (animation_name content temp_dir : string) :
  TemporaryDirectory (runtime self) = Ok temp_dir ->
  exists before : list event,
    trace (snd (upload_animation self animation_name content initial))
    = (before ++ [EvCleanup temp_dir])%list /\
    forall dir : string, ~ In (EvCleanup dir) before.
Proof.
  intros Hdir. rewrite upload_animation_run, Hdir. cbn zeta.
  destruct (write_file (runtime self) _ content) as [[]|e].
  - destruct (convert_animation_file_to_proto (runtime self) _ content)
      as [animation_pb|e]; cbn [snd trace].
    + eexists [_; _; _; _; _]. split; [reflexivity|].
      intros dir Hin. cbn in Hin.
      repeat destruct Hin as [Hin|Hin]; discriminate || contradiction.
    + eexists [_; _; _]. split; [reflexivity|].
      intros dir Hin. cbn in Hin.
      repeat destruct Hin as [Hin|Hin]; discriminate || contradiction.
  - cbn [snd trace]. eexists [_; _]. split; [reflexivity|].
    intros dir Hin. cbn in Hin.
    repeat destruct Hin as [Hin|Hin]; discriminate || contradiction.
Qed.

(** X11.  [upload_animation] raises exactly the exceptions of the steps
    outside its two [try] blocks: the creation of the temporary directory
    and the writing of the file.  The errors of the converter and of the
    service never reach the caller as exceptions. *)
Theorem upload_animation_raises_iff (animation_name content : string)
    (e : exn) :
  fst (upload_animation self animation_name content initial) = Raise e <->
  TemporaryDirectory (runtime self) = Fails e \/
  exists temp_dir : string,
    TemporaryDirectory (runtime self) = Ok temp_dir /\
    write_file (runtime self)
      (os_path_join temp_dir (animation_name ++ ".cha")) content = Fails e.
Proof.
  rewrite upload_animation_run.
  destruct (TemporaryDirectory (runtime self)) as [temp_dir|e0]; cbn zeta.
  - destruct (write_file (runtime self) _ content) as [[]|e0] eqn:Hwrite.
    + destruct (convert_animation_file_to_proto (runtime self) _ content)
        as [animation_pb|e0]; cbn [fst].
      * destruct (upload_animated_move (_choreography_client self)
                    animation_pb animation_name) as [[]|e0];
          (split; [discriminate|]);
          intros [?|(dir & [= <-] & ?)]; congruence.
      * split; [discriminate|].
        intros [?|(dir & [= <-] & ?)]; congruence.
    + cbn [fst]. split.
      * intros [= <-]. right. now exists temp_dir.
      * intros [?|(dir & [= <-] & ?)]; congruence.
  - cbn [fst]. split.
    + intros [= <-]. now left.
    + intros [[= <-]|(dir & ? & _)]; [reflexivity|discriminate].
Qed.

(** X12.  [upload_animation] reports success only for an upload that the
    service accepted: when it returns [True], the message is ["Success"],
    the file was written, the converter gave a proto for it, and
    [upload_animated_move] accepted that proto under the animation's
    name. *)
Theorem upload_animation_success_inv (animation_name content msg : string)
    (s' : state) :
  upload_animation self animation_name content initial
    = (Return (true, msg), s') ->
  msg = "Success" /\
  exists (temp_dir : string) (animation_pb : Animation),
    TemporaryDirectory (runtime self) = Ok temp_dir /\
    write_file (runtime self)
      (os_path_join temp_dir (animation_name ++ ".cha")) content = Ok tt /\
    convert_animation_file_to_proto (runtime self)
      (os_path_join temp_dir (animation_name ++ ".cha")) content
      = Ok animation_pb /\
    upload_animated_move (_choreography_client self) animation_pb
      animation_name = Ok tt.
Proof.
  rewrite upload_animation_run.
  destruct (TemporaryDirectory (runtime self)) as [temp_dir|e0];
    [|discriminate].
  cbn zeta.
  destruct (write_file (runtime self) _ content) as [[]|e0] eqn:Hwrite;
    [|discriminate].
  destruct (convert_animation_file_to_proto (runtime self) _ content)
    as [animation_pb|e0] eqn:Hconvert; [|discriminate].
  destruct (upload_animated_move (_choreography_client self) animation_pb
              animation_name) as [[]|e0] eqn:Hupload; [|discriminate].
  intros [= <- _]. split; [reflexivity|].
  now exists temp_dir, animation_pb.
Qed.

(** X13.  An animation name that starts with a slash leaves the temporary
    directory: [os.path.join] drops the directory in front of an absolute
    path, so the file is written, and converted, at
    [animation_name + ".cha"] itself. *)
Theorem upload_animation_absolute_name (animation_name content temp_dir : string) :
  prefix "/" animation_name = true ->
  TemporaryDirectory (runtime self) = Ok temp_dir ->
  os_path_join temp_dir (animation_name ++ ".cha") = animation_name ++ ".cha" /\
  In (EvWriteFile (animation_name ++ ".cha") content)
    (trace (snd (upload_animation self animation_name content initial))).
Proof.
  intros Habsolute Hdir.
  assert (Hjoin : os_path_join temp_dir (animation_name ++ ".cha")
                  = animation_name ++ ".cha").
  { unfold os_path_join.
    destruct animation_name as [|c rest]; [discriminate|].
    cbn [append prefix] in Habsolute |- *.
    destruct (ascii_dec "/" c); [|discriminate].
    now destruct (rest ++ ".cha"). }
  split; [exact Hjoin|].
  rewrite upload_animation_run, Hdir. cbn zeta. rewrite Hjoin.
  destruct (write_file (runtime self) _ content) as [[]|e];
    [destruct (convert_animation_file_to_proto (runtime self) _ content)|];
    cbn; auto.
Qed.

End MoreOfUploadAnimation.

(** ** The estimate and the order of the moves *)

Section MoreOfEstimate.

Variable self : SpotDance.

Lemma total_slices_permutation (ms ms' : list MoveParams) :
  Permutation ms ms' -> total_slices ms = total_slices ms'.
Proof.
  induction 1 as [|move l l' _ IH|a b l|l l' l'' _ IH1 _ IH2];
    cbn [total_slices fold_right] in *.
  - reflexivity.
  - fold (total_slices l). fold (total_slices l'). now rewrite IH.
  - lia.
  - congruence.
Qed.

(** X14.  The estimate depends on the moves only through their multiset:
    two routines as protobuf can hold them, with the same moves in another
    order and the same rate, leave the loop with the same estimate, or
    with the same exception. *)
Theorem estimate_in_loop_permutation (slices_per_minute : float)
    (ms ms' : list MoveParams) :
  Permutation ms ms' ->
  ms <> [] ->
  well_formed ms ->
  estimate_in_loop self slices_per_minute ms
  = estimate_in_loop self slices_per_minute ms'.
Proof.
  intros Hperm Hne [Hall Hlen].
  assert (Hne' : ms' <> [])
    by (intros ->; apply Permutation_sym, Permutation_nil in Hperm; congruence).
  assert (Hwf' : well_formed ms').
  { split.
    - eapply Permutation_Forall; eassumption.
    - now rewrite <- (Permutation_length Hperm). }
  unfold estimate_in_loop.
  rewrite (estimate_loop_value self _ ms Hne (conj Hall Hlen)).
  rewrite (estimate_loop_value self _ ms' Hne' Hwf').
  now rewrite (total_slices_permutation ms ms' Hperm).
Qed.

End MoreOfEstimate.

(** ** The polling loop is bounded by the clock *)

Section MoreOfPolling.

Variable self : SpotDance.

(** From a guard on, a clock reading outside the window [n] readings
    later ends the loop within [n] status requests. *)
Lemma poll_bounded (start seconds : float) (n : nat) :
  forall (fuel : nat) (s : state),
    within_window start seconds
      (time_time (runtime self) (time_calls s + n)) = false ->
    (n <= fuel)%nat ->
    fst (poll self fuel start (Some seconds) s) <> OutOfFuel /\
    (status_calls (snd (poll self fuel start (Some seconds) s))
     <= status_calls s + n)%nat.
Proof.
  induction n as [|n IH]; intros fuel s Hout Hfuel.
  - rewrite Nat.add_0_r in Hout.
    rewrite (poll_window_elapsed self fuel _ _ _ Hout). cbn.
    split; [discriminate|lia].
  - destruct (within_window start seconds
                (time_time (runtime self) (time_calls s))) eqn:Hguard;
      [|rewrite (poll_window_elapsed self fuel _ _ _ Hguard); cbn;
        split; [discriminate|lia]].
    destruct (get_choreography_status (_choreography_client self)
                (status_calls s)) as [status|e] eqn:Hstatus;
      [|rewrite (poll_status_raises self fuel _ _ e _ Hguard Hstatus); cbn;
        split; [discriminate|lia]].
    destruct (_check_dance_completed self status) eqn:Hcheck;
      [rewrite (poll_terminal self fuel _ _ status _ Hguard Hstatus Hcheck);
       cbn; split; [discriminate|lia]|].
    destruct fuel as [|fuel]; [lia|].
    rewrite (poll_round self fuel _ _ status _ Hguard Hstatus Hcheck).
    destruct (IH fuel (after_rounds s [status])) as [Hends Hcalls].
    + cbn [after_rounds time_calls List.length].
      now replace (time_calls s + 1 + n)%nat with (time_calls s + S n)%nat
        by lia.
    + lia.
    + split; [exact Hends|].
      cbn [after_rounds status_calls List.length] in Hcalls. lia.
Qed.

(** X16.  The polling is bounded by the clock: when the [n]-th reading
    that a guard can take is outside the window, [execute_dance] has ended
    by then, with a tuple or with an exception, after at most [n] status
    requests, whatever the service answers. *)
Theorem execute_dance_polling_bounded (fuel : nat) (data : string)
    (choreography : ChoreographySequence) (total : Z) (seconds : float)
    (n : nat) :
  starts_dancing self data choreography ->
  estimate_loop self (slices_per_minute choreography) (moves choreography)
    0 None = Ok (total, Some seconds) ->
  within_window (time_time (runtime self) 1) seconds
    (time_time (runtime self) (2 + n)) = false ->
  (n <= fuel)%nat ->
  fst (execute_dance self fuel data initial) <> OutOfFuel /\
  (status_calls (snd (execute_dance self fuel data initial)) <= n)%nat.
Proof.
  intros Hstart Hestimate Hout Hfuel.
  rewrite (execute_dance_polls self fuel data choreography total _
             Hstart Hestimate).
  unfold try_except.
  destruct (poll_bounded (time_time (runtime self) 1) seconds n fuel
              {| time_calls := 2; status_calls := 0;
                 trace := started_trace self data choreography |}
              Hout Hfuel) as [Hends Hcalls].
  destruct (poll self fuel (time_time (runtime self) 1) (Some seconds) _)
    as [[result|e|] s0]; cbn [fst snd status_calls] in *.
  - split; [discriminate|exact Hcalls].
  - rewrite dance_handlers_result. cbn [fst snd].
    split; [destruct (is_CommandTimedOutError e); discriminate|exact Hcalls].
  - now elim Hends.
Qed.

End MoreOfPolling.

(** ** Runs on the concrete robots *)

(** The execute request is answered with a lease error. *)
Lemma execute_dance_start_refused_witness :
  execute_dance
    (Scenario.spot Example.python
       (Scenario.service (Ok tt) (Ok Scenario.STATUS_LEASE_ERROR)
          Example.dances_on))
    0 Example.twist_text initial =
  (Return
     (false, "Issue calling execute_choreography, got response.status: 4"),
   {| time_calls := 1;
      status_calls := 0;
      trace :=
        started_trace
          (Scenario.spot Example.python
             (Scenario.service (Ok tt) (Ok Scenario.STATUS_LEASE_ERROR)
                Example.dances_on))
          Example.twist_text Example.twist |}).
Proof.
  apply (execute_dance_start_refused
           (Scenario.spot Example.python
              (Scenario.service (Ok tt) (Ok Scenario.STATUS_LEASE_ERROR)
                 Example.dances_on))
           0 Example.twist_text Example.twist Scenario.STATUS_LEASE_ERROR
           eq_refl eq_refl eq_refl eq_refl eq_refl).
  discriminate.
Defined.

(** The routine whose rate is zero. *)
Lemma execute_dance_zero_rate_witness :
  fst (execute_dance
         (Example.spot Example.ready
            (Example.service (Ok tt) Example.dances_on))
         0 Example.frozen_text initial)
  = Return (false, "Error executing dance: float division by zero").
Proof.
  rewrite (execute_dance_zero_rate
             (Example.spot Example.ready
                (Example.service (Ok tt) Example.dances_on))
             0 Example.frozen_text Example.frozen).
  - reflexivity.
  - repeat split; reflexivity.
  - discriminate.
  - split.
    + repeat constructor; unfold int32; cbn; lia.
    + cbn; lia.
  - reflexivity.
Defined.

(** The run that succeeds at the fourth sample: that sample was the
    completed sequence. *)
Lemma execute_dance_success_inv_witness :
  exists statuses : list Z,
    get_choreography_status
      (Example.service (Ok tt) (Example.finishes_with 2))
      (List.length statuses)
    = Ok 2.
Proof.
  destruct (execute_dance_success_inv
              (Example.spot Example.ready
                 (Example.service (Ok tt) (Example.finishes_with 2)))
              3 Example.twist_text "success"
              (snd (execute_dance
                      (Example.spot Example.ready
                         (Example.service (Ok tt) (Example.finishes_with 2)))
                      3 Example.twist_text initial))
              eq_refl)
    as (_ & choreography & total & seconds & statuses & _ & _ & _ & _
        & Hlast & _).
  exists statuses. exact Hlast.
Defined.

(** The lost connection of the upload is what the caller sees. *)
Lemma execute_dance_raises_inv_witness :
  is_estopped Example.ready = Fails (OtherException "Unable to connect to robot") \/
  (exists choreography : ChoreographySequence,
      is_estopped Example.ready = Ok false /\
      Example.parse Example.twist_text = Ok choreography /\
      upload_choreography
        (Example.service (Fails (OtherException "Unable to connect to robot"))
           Example.dances_on)
        choreography true
        = Fails (OtherException "Unable to connect to robot") /\
      (forall detail,
          OtherException "Unable to connect to robot"
          <> UnauthenticatedError detail) /\
      (forall detail warnings,
          OtherException "Unable to connect to robot"
          <> ResponseError detail warnings)) \/
  OtherException "Unable to connect to robot"
  = CommandTimedOutError
      "Call to execute_choreography did not return completion state in stipulated time".
Proof.
  exact (execute_dance_raises_inv
           (Example.spot Example.ready
              (Example.service
                 (Fails (OtherException "Unable to connect to robot"))
                 Example.dances_on))
           0 Example.twist_text
           (OtherException "Unable to connect to robot")
           (snd (execute_dance
                   (Example.spot Example.ready
                      (Example.service
                         (Fails (OtherException "Unable to connect to robot"))
                         Example.dances_on))
                   0 Example.twist_text initial))
           eq_refl).
Defined.

(** The execute request of the run that succeeds. *)
Lemma execute_dance_execute_inv_witness :
  is_estopped Example.ready = Ok false /\
  (exists choreography : ChoreographySequence,
      Example.parse Example.twist_text = Ok choreography /\
      upload_choreography
        (Example.service (Ok tt) (Example.finishes_with 2)) choreography true
        = Ok tt /\
      "twist" = name choreography) /\
  power_on Example.ready = Ok tt /\
  1000%float = Example.clock 0 /\
  0 = 0.
Proof.
  apply (execute_dance_execute_inv
           (Example.spot Example.ready
              (Example.service (Ok tt) (Example.finishes_with 2)))
           3 Example.twist_text
           (fst (execute_dance
                   (Example.spot Example.ready
                      (Example.service (Ok tt) (Example.finishes_with 2)))
                   3 Example.twist_text initial))
           (snd (execute_dance
                   (Example.spot Example.ready
                      (Example.service (Ok tt) (Example.finishes_with 2)))
                   3 Example.twist_text initial))
           "twist" 1000%float 0).
  - reflexivity.
  - vm_compute. auto 10.
Defined.

(** The status requests of the run that succeeds. *)
Lemma execute_dance_status_inv_witness :
  exists (choreography : ChoreographySequence) (total : Z) (seconds : float),
    starts_dancing
      (Example.spot Example.ready
         (Example.service (Ok tt) (Example.finishes_with 2)))
      Example.twist_text choreography /\
    estimate_loop
      (Example.spot Example.ready
         (Example.service (Ok tt) (Example.finishes_with 2)))
      (slices_per_minute choreography) (moves choreography) 0 None
    = Ok (total, Some seconds).
Proof.
  apply (execute_dance_status_inv
           (Example.spot Example.ready
              (Example.service (Ok tt) (Example.finishes_with 2)))
           3 Example.twist_text
           (fst (execute_dance
                   (Example.spot Example.ready
                      (Example.service (Ok tt) (Example.finishes_with 2)))
                   3 Example.twist_text initial))
           (snd (execute_dance
                   (Example.spot Example.ready
                      (Example.service (Ok tt) (Example.finishes_with 2)))
                   3 Example.twist_text initial))).
  - reflexivity.
  - vm_compute. auto 10.
Defined.

(** The upload of the run that is refused for the license. *)
Lemma execute_dance_upload_inv_witness :
  is_estopped Example.ready = Ok false /\
  Example.parse Example.twist_text = Ok Example.twist /\
  true = true.
Proof.
  apply (execute_dance_upload_inv
           (Example.spot Example.ready
              (Example.service (Fails (UnauthenticatedError "Unauthenticated"))
                 Example.dances_on))
           0 Example.twist_text
           (fst (execute_dance
                   (Example.spot Example.ready
                      (Example.service
                         (Fails (UnauthenticatedError "Unauthenticated"))
                         Example.dances_on))
                   0 Example.twist_text initial))
           (snd (execute_dance
                   (Example.spot Example.ready
                      (Example.service
                         (Fails (UnauthenticatedError "Unauthenticated"))
                         Example.dances_on))
                   0 Example.twist_text initial))
           Example.twist true).
  - reflexivity.
  - vm_compute. auto 10.
Defined.

(** An animation that converts and uploads. *)
Lemma upload_animation_succeeds_witness :
  upload_animation
    (Example.spot Example.ready (Example.service (Ok tt) Example.dances_on))
    "wave" "frames 30" initial =
  (Return (true, "Success"),
   {| time_calls := 0;
      status_calls := 0;
      trace := [ EvTemporaryDirectory;
                 EvWriteFile "/tmp/tmpk3v9/wave.cha" "frames 30";
                 EvConvert "/tmp/tmpk3v9/wave.cha";
                 EvLogInfo "Uploading the name wave";
                 EvUploadAnimatedMove {| proto := "frames 30" |} "wave";
                 EvCleanup "/tmp/tmpk3v9" ] |}).
Proof.
  apply (upload_animation_succeeds
           (Example.spot Example.ready
              (Example.service (Ok tt) Example.dances_on))
           "wave" "frames 30" "/tmp/tmpk3v9" {| proto := "frames 30" |}
           eq_refl eq_refl eq_refl eq_refl).
Defined.

(** The service refuses the animation. *)
Lemma upload_animation_upload_fails_witness :
  fst (upload_animation
         (Scenario.spot Example.python
            (Scenario.service (Fails (OtherException "Animation name in use"))
               (Ok 1) Example.dances_on))
         "wave" "frames 30" initial)
  = Return (false, "Failed to upload animation: Animation name in use").
Proof.
  apply (f_equal fst
           (upload_animation_upload_fails
              (Scenario.spot Example.python
                 (Scenario.service
                    (Fails (OtherException "Animation name in use"))
                    (Ok 1) Example.dances_on))
              "wave" "frames 30" "/tmp/tmpk3v9" {| proto := "frames 30" |}
              (OtherException "Animation name in use")
              eq_refl eq_refl eq_refl eq_refl)).
Defined.

(** The disk is full: the write raises, and the directory is cleaned up
    all the same. *)
Lemma upload_animation_cleans_up_witness :
  exists before : list event,
    trace
      (snd (upload_animation
              (Scenario.spot
                 (Scenario.python (Ok "/tmp/tmpk3v9")
                    (Fails (OtherException "No space left on device")))
                 (Scenario.service (Ok tt) (Ok 1) Example.dances_on))
              "wave" "frames 30" initial))
    = (before ++ [EvCleanup "/tmp/tmpk3v9"])%list /\
    forall dir : string, ~ In (EvCleanup dir) before.
Proof.
  apply (upload_animation_cleans_up
           (Scenario.spot
              (Scenario.python (Ok "/tmp/tmpk3v9")
                 (Fails (OtherException "No space left on device")))
              (Scenario.service (Ok tt) (Ok 1) Example.dances_on))
           "wave" "frames 30" "/tmp/tmpk3v9" eq_refl).
Defined.

(** The full disk again: the exception of the write is raised. *)
Lemma upload_animation_raises_iff_witness :
  fst (upload_animation
         (Scenario.spot
            (Scenario.python (Ok "/tmp/tmpk3v9")
               (Fails (OtherException "No space left on device")))
            (Scenario.service (Ok tt) (Ok 1) Example.dances_on))
         "wave" "frames 30" initial)
  = Raise (OtherException "No space left on device").
Proof.
  apply (proj2 (upload_animation_raises_iff
                  (Scenario.spot
                     (Scenario.python (Ok "/tmp/tmpk3v9")
                        (Fails (OtherException "No space left on device")))
                     (Scenario.service (Ok tt) (Ok 1) Example.dances_on))
                  "wave" "frames 30"
                  (OtherException "No space left on device"))).
  right. exists "/tmp/tmpk3v9". split; reflexivity.
Defined.

(** The animation that uploads: the service accepted its proto. *)
Lemma upload_animation_success_inv_witness :
  exists (temp_dir : string) (animation_pb : Animation),
    upload_animated_move (Example.service (Ok tt) Example.dances_on)
      animation_pb "wave" = Ok tt /\
    Example.convert (os_path_join temp_dir "wave.cha") "frames 30"
    = Ok animation_pb.
Proof.
  destruct (upload_animation_success_inv
              (Example.spot Example.ready
                 (Example.service (Ok tt) Example.dances_on))
              "wave" "frames 30" "Success"
              (snd (upload_animation
                      (Example.spot Example.ready
                         (Example.service (Ok tt) Example.dances_on))
                      "wave" "frames 30" initial))
              eq_refl)
    as (_ & temp_dir & animation_pb & _ & _ & Hconvert & Hupload).
  exists temp_dir, animation_pb. split; [exact Hupload | exact Hconvert].
Defined.

(** An animation named with an absolute path. *)
Lemma upload_animation_absolute_name_witness :
  os_path_join "/tmp/tmpk3v9" "/home/spot/wave.cha" = "/home/spot/wave.cha" /\
  In (EvWriteFile "/home/spot/wave.cha" "frames 30")
    (trace
       (snd (upload_animation
               (Example.spot Example.ready
                  (Example.service (Ok tt) Example.dances_on))
               "/home/spot/wave" "frames 30" initial))).
Proof.
  apply (upload_animation_absolute_name
           (Example.spot Example.ready
              (Example.service (Ok tt) Example.dances_on))
           "/home/spot/wave" "frames 30" "/tmp/tmpk3v9" eq_refl eq_refl).
Defined.

(** The two moves of the example in either order. *)
Lemma estimate_in_loop_permutation_witness :
  estimate_in_loop
    (Example.spot Example.ready (Example.service (Ok tt) Example.dances_on))
    300 (moves Example.twist)
  = estimate_in_loop
      (Example.spot Example.ready (Example.service (Ok tt) Example.dances_on))
      300 Scenario.twist_reversed.
Proof.
  apply (estimate_in_loop_permutation
           (Example.spot Example.ready
              (Example.service (Ok tt) Example.dances_on))
           300 (moves Example.twist) Scenario.twist_reversed).
  - apply perm_swap.
  - discriminate.
  - split.
    + repeat constructor; unfold int32; cbn; lia.
    + cbn; lia.
Defined.

(** Three moves of ten slices at 300 slices per minute: six seconds. *)
Lemma estimate_uniform_routine_witness :
  estimate_in_loop
    (Example.spot Example.ready (Example.service (Ok tt) Example.dances_on))
    300 (repeat {| move_type := "sway"; requested_slices := 10 |} 3)
  = Ok (Some 6%float).
Proof.
  rewrite (estimate_uniform_routine
             (Example.spot Example.ready
                (Example.service (Ok tt) Example.dances_on))
             300 {| move_type := "sway"; requested_slices := 10 |} 3).
  - reflexivity.
  - lia.
  - split.
    + repeat constructor; unfold int32; cbn; lia.
    + cbn; lia.
  - reflexivity.
Defined.

(** On the clock of the example the 25th guard is outside the window of
    the six-second routine: a robot that dances on is asked at most 24
    times. *)
Lemma execute_dance_polling_bounded_witness :
  fst (execute_dance
         (Example.spot Example.ready
            (Example.service (Ok tt) Example.dances_on))
         24 Example.twist_text initial)
  <> OutOfFuel /\
  (status_calls
     (snd (execute_dance
             (Example.spot Example.ready
                (Example.service (Ok tt) Example.dances_on))
             24 Example.twist_text initial))
   <= 24)%nat.
Proof.
  apply (execute_dance_polling_bounded
           (Example.spot Example.ready
              (Example.service (Ok tt) Example.dances_on))
           24 Example.twist_text Example.twist 30 6%float 24).
  - repeat split; reflexivity.
  - reflexivity.
  - reflexivity.
  - vm_compute. repeat constructor.
Defined.
